(** * prompt_generator.py: prompt builders for code review

    A shallow embedding of [src/prompt_generator.py] and the properties of
    its two prompt generators, of the field-extraction heuristic and of the
    generator selector.

    Python [str] values are sequences of Unicode code points; they are
    modelled as lists of code points.  Template literals of the source are
    written as Rocq string literals and converted with [lit]; a line feed is
    [nl] and a double quote is [dq]. *)

From Stdlib Require Import Ascii String DecimalString.
From Stdlib Require Import List NArith ZArith Lia Bool Arith.
Import ListNotations.

Local Open Scope list_scope.
Local Open Scope bool_scope.

(* ================================================================== *)
(** * Python strings *)
(* ================================================================== *)

Module Py.

(** A character is a Unicode code point. *)
Abbreviation char := N (only parsing).
Abbreviation str := (list N) (only parsing).

(** An ASCII literal of the source as a [str]. *)
Definition lit (s : string) : str :=
  map N_of_ascii (list_ascii_of_string s).

Definition nl : str := [10%N].
Definition dq : str := [34%N].
Definition colon : char := 58%N.

(** Truth value of a str: [bool(s)], false exactly for the empty str. *)
Definition truthy {A : Type} (s : list A) : bool :=
  match s with [] => false | _ :: _ => true end.

(** Whitespace as [str.strip], [str.lstrip] and [str.isspace] see it
    (CPython's [_PyUnicode_IsWhitespace]). *)
Definition is_space (c : char) : bool :=
  ((9 <=? c) && (c <=? 13)
   || (28 <=? c) && (c <=? 32)
   || (c =? 133) || (c =? 160) || (c =? 5760)
   || (8192 <=? c) && (c <=? 8202)
   || (c =? 8232) || (c =? 8233) || (c =? 8239) || (c =? 8287)
   || (c =? 12288))%N.

(** Line boundaries of [str.splitlines] (CPython's
    [_PyUnicode_IsLinebreak]). *)
Definition is_linebreak (c : char) : bool :=
  ((10 <=? c) && (c <=? 13)
   || (28 <=? c) && (c <=? 30)
   || (c =? 133) || (c =? 8232) || (c =? 8233))%N.

(** [s.lstrip()] *)
Fixpoint lstrip (s : str) : str :=
  match s with
  | [] => []
  | c :: s' => if is_space c then lstrip s' else s
  end.

(** [s.rstrip()] *)
Definition rstrip (s : str) : str := rev (lstrip (rev s)).

(** [s.strip()] *)
Definition strip (s : str) : str := rstrip (lstrip s).

(** [s.splitlines()]: [cur] holds the characters of the line being read, in
    reverse.  A carriage return followed by a line feed is one boundary, and
    no empty line is produced after a final boundary. *)
Fixpoint splitlines_from (cur : str) (s : str) : list str :=
  match s with
  | [] => match cur with [] => [] | _ :: _ => [rev cur] end
  | c :: s' =>
      if is_linebreak c then
        rev cur ::
          (if (c =? 13)%N then
             match s' with
             | d :: s'' =>
                 if (d =? 10)%N then splitlines_from [] s''
                 else splitlines_from [] s'
             | [] => splitlines_from [] s'
             end
           else splitlines_from [] s')
      else splitlines_from (c :: cur) s'
  end.

Definition splitlines (s : str) : list str := splitlines_from [] s.

(** [sep.join(parts)] *)
Fixpoint join (sep : str) (parts : list str) : str :=
  match parts with
  | [] => []
  | [p] => p
  | p :: ps => p ++ sep ++ join sep ps
  end.

(** [s.split(sep)] for a one-character separator: always at least one
    part. *)
Fixpoint split_on (sep : char) (s : str) : list str :=
  match s with
  | [] => [[]]
  | c :: s' =>
      if (c =? sep)%N then [] :: split_on sep s'
      else match split_on sep s' with
           | p :: ps => (c :: p) :: ps
           | [] => [[c]]
           end
  end.

(** [s.split(sep, 1)] for a one-character separator: the text before the
    first separator and the text after it, or [s] alone. *)
Fixpoint split_once (sep : char) (s : str) : list str :=
  match s with
  | [] => [[]]
  | c :: s' =>
      if (c =? sep)%N then [[]; s']
      else match split_once sep s' with
           | p :: ps => (c :: p) :: ps
           | [] => [[c]]
           end
  end.

(** [s.startswith(p)] *)
Fixpoint starts_with (p s : str) : bool :=
  match p, s with
  | [], _ => true
  | _ :: _, [] => false
  | a :: p', b :: s' => (a =? b)%N && starts_with p' s'
  end.

(** [sub in s] *)
Fixpoint contains (sub s : str) : bool :=
  starts_with sub s
  || match s with
     | [] => false
     | _ :: s' => contains sub s'
     end.

(** [c in s] for one character. *)
Definition has_char (c : char) (s : str) : bool :=
  existsb (fun d => (d =? c)%N) s.

(** [s.replace(old, new)] for a non-empty [old]: occurrences are taken from
    the left and do not overlap; [skip] counts the characters of an
    occurrence still to pass over. *)
Fixpoint replace_from (skip : nat) (old new s : str) : str :=
  match s with
  | [] => []
  | c :: s' =>
      match skip with
      | S k => replace_from k old new s'
      | O =>
          if starts_with old s then
            new ++ replace_from (length old - 1) old new s'
          else c :: replace_from 0 old new s'
      end
  end.

(** [s.replace(old, new)]; an empty [old] matches before every character
    and at the end. *)
Definition replace (old new s : str) : str :=
  match old with
  | [] => new ++ flat_map (fun c => c :: new) s
  | _ :: _ => replace_from 0 old new s
  end.

(** [min(xs)] on a sequence the caller knows to be non-empty. *)
Definition min_of (xs : list nat) : nat :=
  match xs with
  | [] => 0
  | x :: xs' => fold_left Nat.min xs' x
  end.

(** [len(line) - len(line.lstrip())] *)
Definition indent_width (line : str) : nat :=
  length line - length (lstrip line).

(** [str.lower] and [str.upper] restricted to the ASCII letters.  The
    builtins themselves follow the Unicode case tables; the program's
    functions that call them take the case mapping as an argument, and
    these two are the instance used to run them on ASCII text. *)
Definition ascii_lower (s : str) : str :=
  map (fun c => if (65 <=? c) && (c <=? 90) then c + 32 else c)%N s.

Definition ascii_upper (s : str) : str :=
  map (fun c => if (97 <=? c) && (c <=? 122) then c - 32 else c)%N s.

End Py.

Import Py.

(* ================================================================== *)
(** * Data model *)
(* ================================================================== *)

(** [class CodeBlock(BaseModel)] *)
Record CodeBlock := mkCodeBlock {
  start_line : Z;
  end_line : Z;
  code : str;
  line_count : Z
}.

(** A fragment given as a mapping: the keys a caller supplies, each of
    which may be absent.  The program reads only [code], with
    [chunk.get('code', '')]. *)
Record RawFragment := mkRawFragment {
  raw_code : option str;
  raw_start_line : option Z;
  raw_end_line : option Z;
  raw_line_count : option Z
}.

(** An element of [added_code] or [deleted_code]: the program tells the two
    shapes apart with [isinstance(chunk, CodeBlock)]. *)
Inductive chunk :=
| Block (b : CodeBlock)
| Mapping (d : RawFragment).

(** The code of a fragment, as both generators read it. *)
Definition chunk_code (c : chunk) : str :=
  match c with
  | Block b => code b
  | Mapping d =>
      match raw_code d with
      | Some s => s
      | None => []
      end
  end.

(** A similarity score: a number, or text a caller has already rendered.
    Scores given as floating-point numbers are not modelled. *)
Inductive score :=
| ScoreInt (z : Z)
| ScoreStr (s : str).

(** An element of [similar_codes], read with [.get] under the keys [file],
    [code] and [similarity]; each may be absent. *)
Record SimilarCodeMatch := mkSimilarCodeMatch {
  sim_file : option str;
  sim_code : option str;
  sim_similarity : option score
}.

(** [payload_data] of [generate_contextual_review_prompt]; each key may be
    absent. *)
Record payload := mkPayload {
  payload_added_code : option (list chunk);
  payload_deleted_code : option (list chunk);
  payload_full_function_code : option str;
  payload_function_name : option str
}.

(* ================================================================== *)
(** * CodeReviewPromptGenerator *)
(* ================================================================== *)

Module CodeReviewPromptGenerator.

Definition _clean_code (code : str) : str :=
  if negb (truthy code) then code
  else
    let lines := splitlines (strip code) in
    if negb (truthy lines) then []
    else
      let non_empty_lines := filter (fun line => truthy (strip line)) lines in
      if negb (truthy non_empty_lines) then []
      else
        let min_indent := min_of (map indent_width non_empty_lines) in
        let cleaned_lines :=
          map (fun line =>
                 if truthy (strip line) then skipn min_indent line else [])
              lines in
        join nl cleaned_lines.

(** One pass of the two formatting loops of [generate_style_review_prompt]:
    the fenced blocks of the fragments whose cleaned code is not empty. *)
Fixpoint format_blocks (chunks : list chunk) : list str :=
  match chunks with
  | [] => []
  | chunk :: rest =>
      let code := chunk_code chunk in
      let clean_code := _clean_code code in
      if truthy clean_code then
        (lit "```python" ++ nl ++ clean_code ++ nl ++ lit "```")
          :: format_blocks rest
      else format_blocks rest
  end.

(** The local [context_section] of [generate_style_review_prompt]. *)
Definition context_section
    (has_additions has_deletions : bool)
    (full_function_code function_name : str) : str :=
  if truthy full_function_code then
    let clean_full := _clean_code full_function_code in
    if has_deletions && negb has_additions then
      lit "Current function `" ++ function_name
        ++ lit "` (after removal):" ++ nl
        ++ lit "```python" ++ nl ++ clean_full ++ nl ++ lit "```" ++ nl
    else if has_additions || (has_additions && has_deletions) then
      lit "Full function `" ++ function_name ++ lit "`:" ++ nl
        ++ lit "```python" ++ nl ++ clean_full ++ nl ++ lit "```" ++ nl
    else []
  else [].

(** The local [changes_section]. *)
Definition changes_section (added_blocks deleted_blocks : list str) : str :=
  let has_additions := truthy added_blocks in
  let has_deletions := truthy deleted_blocks in
  let changes0 : str := [] in
  let changes1 :=
    if truthy added_blocks then
      changes0 ++ lit "### ADDED:" ++ nl ++ join nl added_blocks ++ nl
    else changes0 in
  let changes2 :=
    if truthy deleted_blocks then
      if has_deletions && negb has_additions then
        changes1
          ++ lit "### REMOVED (these lines were deleted from the function above):"
          ++ nl ++ join nl deleted_blocks ++ nl
      else
        changes1 ++ lit "### REMOVED:" ++ nl ++ join nl deleted_blocks ++ nl
    else changes1 in
  if negb (truthy changes2) then lit "No code changes detected." ++ nl
  else changes2.

(** The local [instruction_context]. *)
Definition instruction_context (has_additions has_deletions : bool) : str :=
  if has_deletions && negb has_additions then
    lit " The function shown above is the current state after the removal."
  else [].

Definition style_header : str :=
  lit "### Instruction:" ++ nl
  ++ lit "You are a code reviewer. Analyze this Python code change and respond EXACTLY in the format below.".

Definition style_footer : str :=
  nl ++ lit "### Response:" ++ nl
  ++ lit "SUMMARY: [One sentence describing what changed]" ++ nl
  ++ lit "ISSUES: [List specific bugs/problems, or write " ++ dq
  ++ lit "None found" ++ dq ++ lit "]" ++ nl
  ++ lit "IMPROVEMENTS: [Suggest specific improvements, or write " ++ dq
  ++ lit "None needed" ++ dq ++ lit "]" ++ nl
  ++ lit "DECISION: [Yes/No] - [One sentence reason]".

Definition generate_style_review_prompt
    (added_code deleted_code : list chunk)
    (full_function_code function_name : str) : str :=
  let added_blocks := format_blocks added_code in
  let deleted_blocks := format_blocks deleted_code in
  let has_additions := truthy added_blocks in
  let has_deletions := truthy deleted_blocks in
  let prompt :=
    style_header ++ instruction_context has_additions has_deletions
      ++ nl ++ nl
      ++ context_section has_additions has_deletions
           full_function_code function_name
      ++ changes_section added_blocks deleted_blocks
      ++ style_footer in
  strip prompt.

(** Rendering of a similarity score inside the f-string. *)
Definition format_score (v : score) : str :=
  match v with
  | ScoreInt z => lit (NilEmpty.string_of_int (Z.to_int z))
  | ScoreStr s => s
  end.

(** The f-string of [generate_duplication_check_prompt], as a function of
    the five values it interpolates. *)
Definition duplication_check_template
    (function_name clean_snippet file_path : str)
    (similarity_score : score) (clean_similar : str) : str :=
  lit "Check for code duplication. Respond EXACTLY in the format below."
  ++ nl ++ nl
  ++ lit "Current code from `" ++ function_name ++ lit "`:" ++ nl
  ++ lit "```python" ++ nl ++ clean_snippet ++ nl ++ lit "```" ++ nl
  ++ nl
  ++ lit "Similar code from `" ++ file_path ++ lit "` ("
  ++ format_score similarity_score ++ lit "% similar):" ++ nl
  ++ lit "```python" ++ nl ++ clean_similar ++ nl ++ lit "```" ++ nl
  ++ nl
  ++ lit "You MUST respond in this EXACT format:" ++ nl ++ nl
  ++ lit "DUPLICATION LEVEL: [None/Low/Medium/High]" ++ nl ++ nl
  ++ lit "ANALYSIS: [Are these actual duplicates? One sentence.]"
  ++ nl ++ nl
  ++ lit "RECOMMENDATION: [What action to take? One sentence.]"
  ++ nl ++ nl
  ++ lit "Do not add extra text.".

(** [most_similar.get('file', 'unknown_file')] *)
Definition get_file (m : SimilarCodeMatch) : str :=
  match sim_file m with
  | Some f => f
  | None => lit "unknown_file"
  end.

(** [most_similar.get('code', '')] *)
Definition get_code (m : SimilarCodeMatch) : str :=
  match sim_code m with
  | Some c => c
  | None => []
  end.

(** [most_similar.get('similarity', 'N/A')] *)
Definition get_similarity (m : SimilarCodeMatch) : score :=
  match sim_similarity m with
  | Some v => v
  | None => ScoreStr (lit "N/A")
  end.

Definition generate_duplication_check_prompt
    (code_snippet : str) (similar_codes : list SimilarCodeMatch)
    (function_name : str) : str :=
  if negb (truthy (strip code_snippet)) || negb (truthy similar_codes) then []
  else
    match similar_codes with
    | [] => [] (* not reached: [similar_codes] is not empty here *)
    | most_similar :: _ =>
        let clean_snippet := _clean_code code_snippet in
        let file_path := get_file most_similar in
        let similar_code := get_code most_similar in
        let similarity_score := get_similarity most_similar in
        let clean_similar := _clean_code similar_code in
        let prompt :=
          duplication_check_template function_name clean_snippet file_path
            similarity_score clean_similar in
        strip prompt
    end.

Section CaseMapping.

(** [str.lower] and [str.upper]. *)
Variables lower upper : str -> str.

Definition sentinel : str := lit "No issues".

(** The [for line in lines] loop of [extract_key_info]. *)
Fixpoint scan_lines (keyword : str) (lines : list str) : str :=
  match lines with
  | [] => sentinel
  | line :: rest =>
      if contains (upper keyword) (upper line) then
        if has_char colon line then
          strip (nth 1 (split_once colon line) [])
        else scan_lines keyword rest
      else scan_lines keyword rest
  end.

Definition extract_key_info (result keyword : str) : str :=
  if negb (truthy result) || contains (lit "sorry") (lower result) then
    sentinel
  else
    let lines := split_on 10%N result in
    scan_lines keyword lines.

Definition generate_summary_prompt
    (style_result duplication_result function_name : str) : str :=
  let style_issues := extract_key_info style_result (lit "ISSUES") in
  let style_decision := extract_key_info style_result (lit "DECISION") in
  let dup_level :=
    extract_key_info duplication_result (lit "DUPLICATION LEVEL") in
  let prompt :=
    lit "Based on these code review results for function `" ++ function_name
    ++ lit "`, make a final decision:" ++ nl ++ nl
    ++ lit "STYLE REVIEW FOUND: " ++ style_issues ++ nl
    ++ lit "STYLE DECISION: " ++ style_decision ++ nl
    ++ lit "DUPLICATION LEVEL: " ++ dup_level ++ nl ++ nl
    ++ lit "Your job: Decide if this code change should be approved based on the findings above."
    ++ nl ++ nl
    ++ lit "Response format:" ++ nl
    ++ lit "ISSUES FOUND: [Summarize actual problems found, or " ++ dq
    ++ lit "None" ++ dq ++ lit "]" ++ nl ++ nl
    ++ lit "PRIORITY: [High/Medium/Low]" ++ nl ++ nl
    ++ lit "RECOMMENDATION: [Approve/Request Changes/Needs Discussion]"
    ++ nl ++ nl
    ++ lit "REASON: [Why you made this recommendation]" ++ nl ++ nl
    ++ lit "Focus on the CODE QUALITY, not the review format." in
  strip prompt.

End CaseMapping.

Definition generate_contextual_review_prompt (payload_data : payload) : str :=
  let added_code :=
    match payload_added_code payload_data with
    | Some l => l
    | None => []
    end in
  let deleted_code :=
    match payload_deleted_code payload_data with
    | Some l => l
    | None => []
    end in
  let full_function_code :=
    match payload_full_function_code payload_data with
    | Some s => s
    | None => []
    end in
  let function_name :=
    match payload_function_name payload_data with
    | Some s => s
    | None => []
    end in
  generate_style_review_prompt
    added_code deleted_code full_function_code function_name.

End CodeReviewPromptGenerator.

(* ================================================================== *)
(** * MinimalCodeReviewPrompts *)
(* ================================================================== *)

Module MinimalCodeReviewPrompts.

Definition _clean_code (code : str) : str :=
  if truthy code then firstn 400 (strip code) else [].

Definition review_footer : str :=
  nl ++ lit "Format your response EXACTLY like this:" ++ nl ++ nl
  ++ lit "ISSUES: [List problems or " ++ dq ++ lit "None" ++ dq ++ lit "]"
  ++ nl
  ++ lit "APPROVE: [Yes/No]" ++ nl
  ++ lit "REASON: [One sentence]" ++ nl ++ nl
  ++ lit "No other text allowed.".

Definition generate_review_prompt
    (added_code deleted_code : list chunk) (function_name : str) : str :=
  let added_text :=
    match added_code with
    | first_added :: _ => chunk_code first_added
    | [] => []
    end in
  let deleted_text :=
    match deleted_code with
    | first_deleted :: _ => chunk_code first_deleted
    | [] => []
    end in
  let prompt0 :=
    lit "Code review for function `" ++ function_name
    ++ lit "`. Answer in EXACT format below." ++ nl ++ nl in
  let prompt1 :=
    if truthy added_text then
      prompt0 ++ lit "NEW CODE:" ++ nl ++ lit "```python" ++ nl
        ++ _clean_code added_text ++ nl ++ lit "```" ++ nl
    else prompt0 in
  let prompt2 :=
    if truthy deleted_text then
      prompt1 ++ lit "REMOVED CODE:" ++ nl ++ lit "```python" ++ nl
        ++ _clean_code deleted_text ++ nl ++ lit "```" ++ nl
    else prompt1 in
  prompt2 ++ review_footer.

Definition no_similar_code : str :=
  lit "No similar code found." ++ nl ++ nl
  ++ lit "DUPLICATE: No" ++ nl
  ++ lit "ACTION: None needed".

(** The f-string of [generate_duplication_prompt], as a function of the two
    cleaned texts it interpolates. *)
Definition comparison_template (code_a code_b : str) : str :=
  lit "Compare these code blocks:" ++ nl ++ nl
  ++ lit "CODE A:" ++ nl
  ++ lit "```python" ++ nl ++ code_a ++ nl ++ lit "```"
  ++ nl ++ nl
  ++ lit "CODE B:" ++ nl
  ++ lit "```python" ++ nl ++ code_b ++ nl ++ lit "```"
  ++ nl ++ nl
  ++ lit "Response format:" ++ nl
  ++ lit "DUPLICATE: [Yes/No]" ++ nl
  ++ lit "ACTION: [Combine/Keep separate/Review needed]".

Definition generate_duplication_prompt
    (code_snippet : str) (similar_codes : list SimilarCodeMatch) : str :=
  if negb (truthy similar_codes) then no_similar_code
  else
    let similar_code :=
      match similar_codes with
      | first :: _ =>
          match sim_code first with
          | Some c => c
          | None => []
          end
      | [] => []
      end in
    comparison_template (_clean_code code_snippet) (_clean_code similar_code).

Definition generate_summary_prompt
    (style_result duplication_result : str) : str :=
  let style_clean :=
    firstn 80
      (replace (lit "REASON:") []
         (replace (lit "APPROVE:") []
            (replace (lit "ISSUES:") [] style_result))) in
  let dup_clean :=
    firstn 50
      (replace (lit "ACTION:") []
         (replace (lit "DUPLICATE:") [] duplication_result)) in
  lit "Make final decision about this code change:" ++ nl ++ nl
  ++ lit "What the style review found: " ++ style_clean ++ nl
  ++ lit "What the duplication check found: " ++ dup_clean ++ nl ++ nl
  ++ lit "Should this code change be merged?" ++ nl ++ nl
  ++ lit "DECISION: [APPROVE/REJECT]" ++ nl
  ++ lit "REASON: [One sentence about the CODE QUALITY]" ++ nl ++ nl
  ++ lit "Do not comment on the review process itself.".

End MinimalCodeReviewPrompts.

(* ================================================================== *)
(** * Factory *)
(* ================================================================== *)

(** The class of the object [get_prompt_generator] builds; neither class
    has any state. *)
Inductive generator :=
| FullGenerator
| MinimalGenerator.

Definition get_prompt_generator (lower : str -> str) (model_name : str)
  : generator :=
  if contains (lit "deepseek") (lower model_name)
     || contains (lit "coder") (lower model_name)
  then MinimalGenerator
  else FullGenerator.

(* ================================================================== *)
(** * Vocabulary of the statements *)
(* ================================================================== *)

(** A str whose first character, if any, is not whitespace. *)
Definition head_ok (s : str) : Prop :=
  match s with
  | [] => True
  | c :: _ => is_space c = false
  end.

(** A str that [strip] leaves alone: no whitespace at either end. *)
Definition trimmed (s : str) : Prop := head_ok s /\ head_ok (rev s).

(** A str made of whitespace only, or empty. *)
Definition blank (s : str) : bool := forallb is_space s.

(** A str without any line boundary. *)
Definition one_line (s : str) : Prop :=
  forallb (fun c => negb (is_linebreak c)) s = true.

(** [sub] occurs somewhere in [s]. *)
Definition occurs_in (sub s : str) : Prop :=
  exists pre post, s = pre ++ sub ++ post.

(** [line] carries the label: its uppercased form contains the uppercased
    label. *)
Definition label_match (upper : str -> str) (keyword line : str) : Prop :=
  occurs_in (upper keyword) (upper line).

(** [line] is one the loop of [extract_key_info] returns from: it carries
    the label and holds a colon. *)
Definition usable (upper : str -> str) (keyword line : str) : Prop :=
  label_match upper keyword line /\ In colon line.

(** What the loop over [lines] of the full generator's [_clean_code] does
    to one line when [min_indent] is 0. *)
Definition keep_or_empty (line : str) : str :=
  if truthy (strip line) then line else [].

(* ================================================================== *)
(** * Facts about the string primitives *)
(* ================================================================== *)

Section StripFacts.

Lemma linebreak_is_space c : is_linebreak c = true -> is_space c = true.
Proof.
  unfold is_linebreak, is_space.
  rewrite !orb_true_iff, !andb_true_iff, !N.leb_le, !N.eqb_eq.
  intros H.
  repeat match goal with
         | H : _ \/ _ |- _ => destruct H
         | H : _ /\ _ |- _ => destruct H
         end; subst; try lia; auto 20.
Qed.

Lemma nonspace_not_linebreak c : is_space c = false -> is_linebreak c = false.
Proof.
  intros H. destruct (is_linebreak c) eqn:E; [|reflexivity].
  apply linebreak_is_space in E. congruence.
Qed.

Lemma lstrip_head_ok s : head_ok (lstrip s).
Proof.
  induction s as [|c s IH]; simpl; [exact I|].
  destruct (is_space c) eqn:E; [exact IH | exact E].
Qed.

Lemma lstrip_id s : head_ok s -> lstrip s = s.
Proof. destruct s as [|c s]; simpl; [reflexivity|]. now intros ->. Qed.

Lemma lstrip_split s :
  exists p, s = p ++ lstrip s /\ blank p = true.
Proof.
  induction s as [|c s [p [Hs Hp]]]; simpl.
  - now exists [].
  - destruct (is_space c) eqn:E.
    + exists (c :: p); simpl. rewrite E, Hp. now rewrite <- Hs.
    + now exists [].
Qed.

Lemma lstrip_nil_iff s : lstrip s = [] <-> blank s = true.
Proof.
  induction s as [|c s IH]; simpl; [tauto|].
  destruct (is_space c); simpl; [exact IH|].
  split; discriminate.
Qed.

Lemma blank_rev s : blank (rev s) = blank s.
Proof.
  unfold blank. induction s as [|c s IH]; simpl; [reflexivity|].
  rewrite forallb_app, IH; simpl. rewrite andb_true_r. apply andb_comm.
Qed.

Lemma rstrip_rev_head_ok s : head_ok (rev (rstrip s)).
Proof. unfold rstrip. rewrite rev_involutive. apply lstrip_head_ok. Qed.

Lemma rstrip_split s :
  exists q, s = rstrip s ++ q /\ blank q = true.
Proof.
  unfold rstrip. destruct (lstrip_split (rev s)) as [p [Hs Hp]].
  exists (rev p). split.
  - rewrite <- rev_app_distr, <- Hs. now rewrite rev_involutive.
  - now rewrite blank_rev.
Qed.

Lemma rstrip_head_ok s : head_ok s -> head_ok (rstrip s).
Proof.
  intros H. destruct (rstrip_split s) as [q [Hs _]].
  destruct (rstrip s) as [|c t]; [exact I|].
  rewrite Hs in H. exact H.
Qed.

Lemma rstrip_id s : head_ok (rev s) -> rstrip s = s.
Proof.
  intros H. unfold rstrip. rewrite lstrip_id by exact H.
  apply rev_involutive.
Qed.

Lemma strip_trimmed s : trimmed (strip s).
Proof.
  split.
  - apply rstrip_head_ok, lstrip_head_ok.
  - apply rstrip_rev_head_ok.
Qed.

Lemma strip_id s : trimmed s -> strip s = s.
Proof.
  intros [H1 H2]. unfold strip. rewrite (lstrip_id s H1). now apply rstrip_id.
Qed.

Lemma strip_nil_iff s : strip s = [] <-> blank s = true.
Proof.
  unfold strip, rstrip. split.
  - intros H. apply (f_equal (@rev char)) in H.
    rewrite rev_involutive in H. simpl in H.
    apply lstrip_nil_iff in H. rewrite blank_rev in H.
    destruct (lstrip_split s) as [p [Hs Hp]].
    rewrite Hs. unfold blank in *. rewrite forallb_app, Hp. exact H.
  - intros H. apply lstrip_nil_iff in H. now rewrite H.
Qed.

Lemma truthy_strip s : truthy (strip s) = negb (blank s).
Proof.
  destruct (blank s) eqn:E.
  - apply strip_nil_iff in E. now rewrite E.
  - destruct (strip s) eqn:F; [|reflexivity].
    apply strip_nil_iff in F. congruence.
Qed.

Lemma truthy_false {A} (l : list A) : truthy l = false <-> l = [].
Proof. destruct l; simpl; split; congruence. Qed.

Lemma truthy_true {A} (l : list A) : truthy l = true <-> l <> [].
Proof. destruct l; simpl; split; congruence. Qed.

(** A trimmed, non-empty str shows a first and a last character, neither of
    them whitespace. *)
Lemma trimmed_ends s :
  trimmed s -> s <> [] ->
  (exists c t, s = c :: t /\ is_space c = false)
  /\ (exists t d, s = t ++ [d] /\ is_space d = false).
Proof.
  intros [H1 H2] Hne. split.
  - destruct s as [|c t]; [congruence|]. now exists c, t.
  - destruct (rev s) as [|d r] eqn:E.
    + apply (f_equal (@rev char)) in E. rewrite rev_involutive in E.
      simpl in E. congruence.
    + exists (rev r), d. split; [|exact H2].
      apply (f_equal (@rev char)) in E. rewrite rev_involutive in E.
      exact E.
Qed.

Lemma trimmed_of_ends c mid d :
  is_space c = false -> is_space d = false -> trimmed (c :: mid ++ [d]).
Proof.
  intros Hc Hd. split; [exact Hc|].
  change (c :: mid ++ [d]) with ((c :: mid) ++ [d]).
  rewrite rev_app_distr. exact Hd.
Qed.

End StripFacts.

Section SplitlinesFacts.

Lemma one_line_app s t : one_line (s ++ t) <-> one_line s /\ one_line t.
Proof. unfold one_line. rewrite forallb_app. apply andb_true_iff. Qed.

Lemma one_line_rev s : one_line (rev s) <-> one_line s.
Proof.
  induction s as [|c s IH]; simpl; [tauto|].
  rewrite one_line_app, IH. unfold one_line; simpl.
  rewrite !andb_true_iff. tauto.
Qed.

Lemma one_line_cons c s :
  one_line (c :: s) <-> is_linebreak c = false /\ one_line s.
Proof.
  unfold one_line; simpl. rewrite andb_true_iff, negb_true_iff. tauto.
Qed.

(** Reading a stretch without boundaries only grows the current line. *)
Lemma splitlines_from_one_line l : forall cur rest,
  one_line l ->
  splitlines_from cur (l ++ rest) = splitlines_from (rev l ++ cur) rest.
Proof.
  induction l as [|c l IH]; intros cur rest H; [reflexivity|].
  apply one_line_cons in H. destruct H as [Hc Hl].
  simpl. rewrite Hc, IH by exact Hl.
  now rewrite <- app_assoc.
Qed.

Lemma splitlines_from_nl cur rest :
  splitlines_from cur (nl ++ rest) = rev cur :: splitlines_from [] rest.
Proof. reflexivity. Qed.

(** [splitlines] undoes [join] on lines that hold no boundary, provided
    the last one is not empty. *)
Lemma splitlines_join ls :
  Forall one_line ls -> last ls [] <> [] ->
  splitlines (join nl ls) = ls.
Proof.
  unfold splitlines.
  induction ls as [|p ps IH]; intros Hall Hlast; [reflexivity|].
  inversion Hall as [|? ? Hp Hps]; subst.
  destruct ps as [|q ps].
  - simpl in *. rewrite <- (app_nil_r p) at 1.
    rewrite splitlines_from_one_line by exact Hp.
    rewrite app_nil_r. simpl.
    destruct (rev p) eqn:E.
    + apply (f_equal (@rev char)) in E. rewrite rev_involutive in E.
      simpl in E. congruence.
    + now rewrite <- E, rev_involutive.
  - change (join nl (p :: q :: ps)) with (p ++ nl ++ join nl (q :: ps)).
    rewrite splitlines_from_one_line by exact Hp.
    rewrite app_nil_r, splitlines_from_nl, rev_involutive.
    f_equal. apply IH; [exact Hps | exact Hlast].
Qed.

(** Every line [splitlines] yields is free of boundaries. *)
Lemma splitlines_from_one_line_all n : forall s cur,
  length s <= n -> one_line cur ->
  Forall one_line (splitlines_from cur s).
Proof.
  induction n as [|n IH]; intros s cur Hlen Hcur.
  - destruct s; [|simpl in Hlen; lia]. simpl.
    destruct cur; constructor; [|constructor].
    now apply one_line_rev.
  - destruct s as [|c s]; simpl.
    + destruct cur; constructor; [|constructor]. now apply one_line_rev.
    + simpl in Hlen.
      destruct (is_linebreak c) eqn:Ec.
      * constructor; [now apply one_line_rev|].
        destruct (c =? 13)%N.
        -- destruct s as [|d s'].
           ++ constructor.
           ++ simpl in Hlen. destruct (d =? 10)%N.
              ** apply IH; [lia | reflexivity].
              ** apply IH; [simpl; lia | reflexivity].
        -- apply IH; [lia | reflexivity].
      * apply IH; [lia|]. apply one_line_cons. now split.
Qed.

Lemma splitlines_one_line s : Forall one_line (splitlines s).
Proof.
  apply (splitlines_from_one_line_all (length s)); [lia | reflexivity].
Qed.

(** With a line under way, the first line produced continues it. *)
Lemma splitlines_from_first s : forall cur,
  cur <> [] -> exists l ls, splitlines_from cur s = (rev cur ++ l) :: ls.
Proof.
  induction s as [|c s IH]; intros cur Hcur; simpl.
  - destruct cur; [congruence|]. exists [], []. now rewrite app_nil_r.
  - destruct (is_linebreak c).
    + eexists [], _. rewrite app_nil_r. reflexivity.
    + destruct (IH (c :: cur)) as [l [ls E]]; [discriminate|].
      exists (c :: l), ls. rewrite E. simpl. now rewrite <- app_assoc.
Qed.

Lemma splitlines_first c t :
  is_space c = false ->
  exists l ls, splitlines (c :: t) = (c :: l) :: ls.
Proof.
  intros Hc. unfold splitlines. simpl.
  rewrite (nonspace_not_linebreak c Hc).
  destruct (splitlines_from_first t [c]) as [l [ls E]]; [discriminate|].
  exists l, ls. exact E.
Qed.

(** A str that ends with a character other than a boundary has that
    character at the end of its last line. *)
Lemma splitlines_from_last n : forall t cur d,
  length t <= n -> is_linebreak d = false ->
  exists ls l, splitlines_from cur (t ++ [d]) = ls ++ [l ++ [d]].
Proof.
  induction n as [|n IH]; intros t cur d Hlen Hd.
  - destruct t; [|simpl in Hlen; lia]. simpl. rewrite Hd. simpl.
    exists [], (rev cur). reflexivity.
  - destruct t as [|c t].
    + simpl. rewrite Hd. simpl. exists [], (rev cur). reflexivity.
    + simpl in Hlen. simpl.
      destruct (is_linebreak c) eqn:Ec.
      * assert (Hgen : exists ls l,
                   splitlines_from [] (t ++ [d]) = ls ++ [l ++ [d]])
          by (apply IH; [lia | exact Hd]).
        destruct (c =? 13)%N.
        -- destruct t as [|e t']; simpl.
           ++ destruct (d =? 10)%N eqn:Ed.
              ** apply N.eqb_eq in Ed. subst d. discriminate.
              ** rewrite Hd. simpl. exists [rev cur], []. reflexivity.
           ++ destruct (e =? 10)%N.
              ** destruct (IH t' [] d) as [ls [l E]];
                   [simpl in Hlen; lia | exact Hd |].
                 exists (rev cur :: ls), l. now rewrite E.
              ** destruct Hgen as [ls [l E]].
                 exists (rev cur :: ls), l. simpl in E. now rewrite E.
        -- destruct Hgen as [ls [l E]].
           exists (rev cur :: ls), l. now rewrite E.
      * apply IH; [lia | exact Hd].
Qed.

Lemma splitlines_last t d :
  is_space d = false ->
  exists ls l, splitlines (t ++ [d]) = ls ++ [l ++ [d]].
Proof.
  intros Hd. apply (splitlines_from_last (length t)); [lia|].
  now apply nonspace_not_linebreak.
Qed.

Lemma join_last sep xs x : exists pre, join sep (xs ++ [x]) = pre ++ x.
Proof.
  induction xs as [|y ys [pre E]].
  - now exists [].
  - destruct ys as [|z zs].
    + exists (y ++ sep). simpl. now rewrite <- app_assoc.
    + exists (y ++ sep ++ pre).
      change (join sep ((y :: z :: zs) ++ [x]))
        with (y ++ sep ++ join sep ((z :: zs) ++ [x])).
      rewrite E. now rewrite <- !app_assoc.
Qed.

Lemma join_first sep x xs : exists post, join sep (x :: xs) = x ++ post.
Proof.
  destruct xs as [|y ys].
  - exists []. simpl. now rewrite app_nil_r.
  - now exists (sep ++ join sep (y :: ys)).
Qed.

End SplitlinesFacts.

(* ================================================================== *)
(** * The indentation normalizer of the full generator *)
(* ================================================================== *)

Module CleanCode.
Import CodeReviewPromptGenerator.

Lemma keep_or_empty_idem line :
  keep_or_empty (keep_or_empty line) = keep_or_empty line.
Proof.
  unfold keep_or_empty. destruct (truthy (strip line)) eqn:E.
  - now rewrite E.
  - reflexivity.
Qed.

Lemma keep_or_empty_one_line line :
  one_line line -> one_line (keep_or_empty line).
Proof.
  unfold keep_or_empty. now destruct (truthy (strip line)).
Qed.

Lemma fold_min_zero xs : fold_left Nat.min xs 0 = 0.
Proof. induction xs as [|x xs IH]; simpl; [reflexivity | exact IH]. Qed.

Lemma indent_width_head_ok s : head_ok s -> indent_width s = 0.
Proof. intros H. unfold indent_width. rewrite lstrip_id by exact H. lia. Qed.

Lemma nonblank_of_head c l : is_space c = false -> truthy (strip (c :: l)) = true.
Proof. intros H. rewrite truthy_strip. simpl. now rewrite H. Qed.

Lemma nonblank_of_last l d :
  is_space d = false -> truthy (strip (l ++ [d])) = true.
Proof.
  intros H. rewrite truthy_strip. unfold blank.
  rewrite forallb_app. simpl. rewrite H. now rewrite andb_false_r.
Qed.

Lemma keep_nonblank_head c l :
  is_space c = false -> keep_or_empty (c :: l) = c :: l.
Proof. intros H. unfold keep_or_empty. now rewrite nonblank_of_head. Qed.

Lemma keep_nonblank_last l d :
  is_space d = false -> keep_or_empty (l ++ [d]) = l ++ [d].
Proof. intros H. unfold keep_or_empty. now rewrite nonblank_of_last. Qed.

(** The lines of stripped text: the first starts with a character that is
    not whitespace, the last ends with one. *)
Lemma lines_of_stripped code :
  splitlines (strip code) = []
  \/ (exists c l ls, splitlines (strip code) = (c :: l) :: ls
                     /\ is_space c = false)
     /\ (exists ls l d, splitlines (strip code) = ls ++ [l ++ [d]]
                        /\ is_space d = false).
Proof.
  destruct (strip code) as [|c0 t0] eqn:E; [now left|].
  right.
  assert (Hne : strip code <> []) by (rewrite E; discriminate).
  destruct (trimmed_ends _ (strip_trimmed code) Hne)
    as [[c [t [E1 Hc]]] [t' [d [E2 Hd]]]].
  rewrite <- E. split.
  - rewrite E1. destruct (splitlines_first c t Hc) as [l [ls El]].
    now exists c, l, ls.
  - rewrite E2. destruct (splitlines_last t' d Hd) as [ls [l El]].
    now exists ls, l, d.
Qed.

(** After [code.strip()] the first line has no indentation, so
    [min_indent] is always 0 and no line loses a character. *)
Lemma clean_code_eq code :
  _clean_code code = join nl (map keep_or_empty (splitlines (strip code))).
Proof.
  unfold _clean_code.
  destruct code as [|a code']; [reflexivity|].
  cbn [truthy negb].
  destruct (lines_of_stripped (a :: code')) as [E | [[c [l [ls [E Hc]]]] _]].
  - now rewrite E.
  - rewrite E. cbn [truthy negb filter].
    rewrite (nonblank_of_head c l Hc). cbn [truthy negb map min_of].
    rewrite indent_width_head_ok by exact Hc.
    rewrite fold_min_zero. reflexivity.
Qed.

Lemma min_indent_zero code c0 lines :
  splitlines (strip code) = c0 :: lines ->
  min_of (map indent_width
            (filter (fun line => truthy (strip line)) (c0 :: lines))) = 0.
Proof.
  intros E.
  destruct (lines_of_stripped code) as [E0 | [[c [l [ls [E1 Hc]]]] _]];
    [congruence|].
  rewrite E in E1. injection E1 as -> ->.
  cbn [filter]. rewrite (nonblank_of_head c l Hc). cbn [map min_of].
  rewrite indent_width_head_ok by exact Hc. apply fold_min_zero.
Qed.

Lemma clean_code_trimmed code : trimmed (_clean_code code).
Proof.
  rewrite clean_code_eq.
  destruct (lines_of_stripped code)
    as [E | [[c [l [ls [E Hc]]]] [ls' [l' [d [E' Hd]]]]]].
  - rewrite E. split; exact I.
  - split.
    + rewrite E. cbn [map]. rewrite (keep_nonblank_head c l Hc).
      destruct (join_first nl (c :: l) (map keep_or_empty ls)) as [post ->].
      exact Hc.
    + rewrite E', map_app. cbn [map]. rewrite (keep_nonblank_last l' d Hd).
      destruct (join_last nl (map keep_or_empty ls') (l' ++ [d])) as [pre ->].
      rewrite app_assoc, rev_app_distr. exact Hd.
Qed.

Lemma clean_code_lines code :
  splitlines (_clean_code code) = map keep_or_empty (splitlines (strip code)).
Proof.
  rewrite clean_code_eq.
  destruct (lines_of_stripped code)
    as [E | [_ [ls' [l' [d [E' Hd]]]]]].
  - now rewrite E.
  - apply splitlines_join.
    + apply Forall_forall. intros x Hx. apply in_map_iff in Hx.
      destruct Hx as [y [<- Hy]]. apply keep_or_empty_one_line.
      pose proof (splitlines_one_line (strip code)) as Hall.
      rewrite Forall_forall in Hall. now apply Hall.
    + rewrite E', map_app. cbn [map]. rewrite last_last.
      rewrite (keep_nonblank_last l' d Hd).
      destruct l'; discriminate.
Qed.

End CleanCode.

Import CodeReviewPromptGenerator.

(** C4.  The indentation normalizer of the full generator is idempotent:
    for every input str, cleaning the cleaned text returns it unchanged. *)
Theorem clean_code_idempotent (code : str) :
  _clean_code (_clean_code code) = _clean_code code.
Proof.
  rewrite (CleanCode.clean_code_eq (_clean_code code)).
  rewrite (strip_id _ (CleanCode.clean_code_trimmed code)).
  rewrite CleanCode.clean_code_lines, map_map.
  rewrite (map_ext _ _ CleanCode.keep_or_empty_idem).
  symmetry. apply CleanCode.clean_code_eq.
Qed.

(** C1.  On the two-line text whose lines are indented by 2 and by 4, the
    normalizer returns the first line without indentation and the second
    still indented by 4: the common width 2 is not removed from the second
    line, and its indentation relative to the first grows from 2 to 4.  The
    cause is [code.strip()], which takes the first line's indentation away
    before the common width is measured. *)
Theorem clean_code_loses_first_line_indent :
  let input := lit "  a" ++ nl ++ lit "    b" in
  _clean_code input = lit "a" ++ nl ++ lit "    b"
  /\ map indent_width (splitlines input) = [2; 4]
  /\ map indent_width (splitlines (_clean_code input)) = [0; 4].
Proof. repeat split. Qed.

(** The minimum the normalizer computes is 0 for every input: the
    de-indentation never removes a character. *)
Lemma clean_code_min_indent_always_zero (code : str) :
  match splitlines (strip code) with
  | [] => True
  | lines =>
      min_of (map indent_width
                (filter (fun line => truthy (strip line)) lines)) = 0
  end.
Proof.
  destruct (splitlines (strip code)) as [|c0 lines] eqn:E; [exact I|].
  exact (CleanCode.min_indent_zero code c0 lines E).
Qed.

(** C7.  The minimal generator's cleaning step is the first 400 characters
    of the stripped input, for every input; when the stripped input has at
    least 400 characters the result has exactly 400, and the empty input
    cleans to the empty str. *)
Theorem minimal_clean_code_spec (code : str) :
  MinimalCodeReviewPrompts._clean_code code = firstn 400 (strip code)
  /\ (400 <= length (strip code) ->
      length (MinimalCodeReviewPrompts._clean_code code) = 400)
  /\ MinimalCodeReviewPrompts._clean_code [] = [].
Proof.
  assert (E : MinimalCodeReviewPrompts._clean_code code
              = firstn 400 (strip code)).
  { unfold MinimalCodeReviewPrompts._clean_code.
    destruct code; reflexivity. }
  split; [exact E|]. split; [|reflexivity].
  intros H. rewrite E. rewrite length_firstn. lia.
Qed.

Lemma minimal_clean_code_spec_witness :
  400 <= length (strip (repeat 120%N 500))
  /\ length (MinimalCodeReviewPrompts._clean_code (repeat 120%N 500)) = 400.
Proof.
  assert (H : 400 <= length (strip (repeat 120%N 500))).
  { vm_compute. repeat constructor. }
  split; [exact H|].
  exact (proj1 (proj2 (minimal_clean_code_spec (repeat 120%N 500))) H).
Defined.

Section SearchFacts.

Lemma starts_with_spec p : forall s,
  starts_with p s = true <-> exists post, s = p ++ post.
Proof.
  induction p as [|a p IH]; intros s; simpl.
  - split; [intros _; now exists s | reflexivity].
  - destruct s as [|b s].
    + split; [discriminate | intros [post E]; discriminate].
    + rewrite andb_true_iff, N.eqb_eq, IH. split.
      * intros [-> [post ->]]. now exists post.
      * intros [post E]. injection E as -> ->. split; [reflexivity|].
        now exists post.
Qed.

Lemma contains_spec sub : forall s,
  contains sub s = true <-> occurs_in sub s.
Proof.
  unfold occurs_in.
  induction s as [|c s IH]; simpl; rewrite orb_true_iff, starts_with_spec.
  - split.
    + intros [[post E] | H]; [|discriminate]. now exists [], post.
    + intros [pre [post E]]. left.
      destruct pre; [now exists post | discriminate].
  - rewrite IH. split.
    + intros [[post E] | [pre [post E]]].
      * now exists [], post.
      * exists (c :: pre), post. now rewrite E.
    + intros [pre [post E]]. destruct pre as [|a pre].
      * left. now exists post.
      * right. injection E as -> ->. now exists pre, post.
Qed.

Lemma contains_false sub s : contains sub s = false <-> ~ occurs_in sub s.
Proof.
  rewrite <- contains_spec. destruct (contains sub s); split; congruence.
Qed.

Lemma has_char_spec c s : has_char c s = true <-> In c s.
Proof.
  unfold has_char. rewrite existsb_exists. split.
  - intros [d [Hin E]]. apply N.eqb_eq in E. now subst.
  - intros H. exists c. split; [exact H | apply N.eqb_refl].
Qed.

(** [split_once] cuts at the first occurrence of the separator. *)
Lemma split_once_cut sep head : forall tail,
  ~ In sep head ->
  split_once sep (head ++ sep :: tail) = [head; tail].
Proof.
  induction head as [|c head IH]; intros tail Hnot; simpl.
  - now rewrite N.eqb_refl.
  - destruct (c =? sep)%N eqn:E.
    + apply N.eqb_eq in E. exfalso. apply Hnot. now left.
    + rewrite IH; [reflexivity|]. intros Hin. apply Hnot. now right.
Qed.

Lemma split_on_nonempty sep s : split_on sep s <> [].
Proof.
  destruct s as [|c s]; simpl; [discriminate|].
  destruct (c =? sep)%N; [discriminate|].
  destruct (split_on sep s); discriminate.
Qed.

(** [split_on] and [join] on the same separator are inverse. *)
Lemma split_on_join sep s : join [sep] (split_on sep s) = s.
Proof.
  induction s as [|c s IH]; [reflexivity|]. simpl.
  pose proof (split_on_nonempty sep s) as Hne.
  destruct (split_on sep s) as [|p ps] eqn:F; [congruence|].
  destruct (c =? sep)%N eqn:E.
  - apply N.eqb_eq in E. subst c.
    change (join [sep] ([] :: p :: ps)) with ([sep] ++ join [sep] (p :: ps)).
    now rewrite IH.
  - destruct ps as [|q ps]; simpl in *; now rewrite IH.
Qed.

End SearchFacts.

(** C8.  For every model name, and whatever the case mapping, the selector
    returns the minimal generator exactly when the lowercased name contains
    "deepseek" or contains "coder", and the full generator exactly
    otherwise; the empty name, whose lowercased form is empty, selects the
    full generator. *)
Theorem get_prompt_generator_spec (lower : str -> str) (model_name : str) :
  (get_prompt_generator lower model_name = MinimalGenerator
   <-> occurs_in (lit "deepseek") (lower model_name)
       \/ occurs_in (lit "coder") (lower model_name))
  /\ (get_prompt_generator lower model_name = FullGenerator
      <-> ~ (occurs_in (lit "deepseek") (lower model_name)
             \/ occurs_in (lit "coder") (lower model_name)))
  /\ (lower [] = [] -> get_prompt_generator lower [] = FullGenerator).
Proof.
  unfold get_prompt_generator.
  rewrite <- !contains_spec, <- orb_true_iff.
  split; [|split].
  - destruct (_ || _); split; congruence.
  - destruct (_ || _); split; congruence.
  - intros ->. reflexivity.
Qed.

Lemma get_prompt_generator_spec_witness :
  ascii_lower [] = []
  /\ get_prompt_generator ascii_lower [] = FullGenerator
  /\ get_prompt_generator ascii_lower (lit "deepseek-coder-6.7b")
     = MinimalGenerator
  /\ get_prompt_generator ascii_lower (lit "gpt-4") = FullGenerator.
Proof.
  split; [reflexivity|]. split; [|split; reflexivity].
  exact (proj2 (proj2 (get_prompt_generator_spec ascii_lower []))
           eq_refl).
Defined.

Section ExtractFacts.

Variable upper : str -> str.

Lemma scan_lines_skip keyword line rest :
  ~ usable upper keyword line ->
  scan_lines upper keyword (line :: rest) = scan_lines upper keyword rest.
Proof.
  intros H. simpl.
  destruct (contains (upper keyword) (upper line)) eqn:E1; [|reflexivity].
  destruct (has_char colon line) eqn:E2; [|reflexivity].
  exfalso. apply H. split.
  - now apply contains_spec.
  - now apply has_char_spec.
Qed.

Lemma scan_lines_none keyword lines :
  (forall l, In l lines -> ~ usable upper keyword l) ->
  scan_lines upper keyword lines = sentinel.
Proof.
  induction lines as [|line rest IH]; intros H; [reflexivity|].
  rewrite scan_lines_skip by (apply H; now left).
  apply IH. intros l Hl. apply H. now right.
Qed.

Lemma scan_lines_found keyword before head value after :
  (forall l, In l before -> ~ usable upper keyword l) ->
  label_match upper keyword (head ++ colon :: value) ->
  ~ In colon head ->
  scan_lines upper keyword (before ++ (head ++ colon :: value) :: after)
  = strip value.
Proof.
  induction before as [|b before IH]; intros Hbefore Hm Hhead.
  - simpl. apply contains_spec in Hm. rewrite Hm.
    assert (Hc : has_char colon (head ++ colon :: value) = true).
    { apply has_char_spec, in_or_app. right. now left. }
    rewrite Hc, split_once_cut by exact Hhead. reflexivity.
  - rewrite <- app_comm_cons, scan_lines_skip by (apply Hbefore; now left).
    apply IH; [|exact Hm | exact Hhead].
    intros l Hl. apply Hbefore. now right.
Qed.

End ExtractFacts.

(** C2, amended.  Whatever the case mappings: [extract_key_info] returns
    "No issues" when the text is empty or its lowercased form contains
    "sorry".  Otherwise, reading the lines between line feeds in document
    order, it returns the stripped text after the first colon of the first
    line that both carries the label and holds a colon; lines carrying the
    label without a colon are passed over, as are lines without the label;
    and it returns "No issues" when no line both carries the label and
    holds a colon. *)
Theorem extract_key_info_spec (lower upper : str -> str)
    (result keyword : str) :
  (result = [] \/ occurs_in (lit "sorry") (lower result) ->
   extract_key_info lower upper result keyword = sentinel)
  /\ (result <> [] -> ~ occurs_in (lit "sorry") (lower result) ->
      (forall before head value after,
          split_on 10%N result = before ++ (head ++ colon :: value) :: after ->
          (forall l, In l before -> ~ usable upper keyword l) ->
          label_match upper keyword (head ++ colon :: value) ->
          ~ In colon head ->
          extract_key_info lower upper result keyword = strip value)
      /\ ((forall l, In l (split_on 10%N result) ->
                     ~ usable upper keyword l) ->
          extract_key_info lower upper result keyword = sentinel)).
Proof.
  unfold extract_key_info. split.
  - intros [-> | H]; [reflexivity|].
    apply contains_spec in H. rewrite H. now rewrite orb_true_r.
  - intros Hne Hsorry.
    apply truthy_true in Hne. apply contains_false in Hsorry.
    rewrite Hne, Hsorry. cbn [negb orb]. split.
    + intros before head value after -> Hbefore Hm Hhead.
      now apply scan_lines_found.
    + apply scan_lines_none.
Qed.

Lemma extract_key_info_spec_witness :
  extract_key_info ascii_lower ascii_upper
    (lit "SUMMARY: ok" ++ nl ++ lit "ISSUES: none found") (lit "ISSUES")
  = lit "none found"
  /\ extract_key_info ascii_lower ascii_upper
       (lit "I'm sorry, can't help") (lit "ISSUES") = sentinel
  /\ extract_key_info ascii_lower ascii_upper
       (lit "SUMMARY: ok") (lit "DECISION") = sentinel.
Proof.
  split; [|split].
  - refine (proj1 (proj2 (extract_key_info_spec ascii_lower ascii_upper
              (lit "SUMMARY: ok" ++ nl ++ lit "ISSUES: none found")
              (lit "ISSUES")) _ _)
              [lit "SUMMARY: ok"] (lit "ISSUES") (lit " none found") []
              eq_refl _ _ _).
    + discriminate.
    + apply contains_false. reflexivity.
    + intros l [<- | []] [Hm _]. apply contains_spec in Hm. discriminate.
    + apply contains_spec. reflexivity.
    + intros H. apply has_char_spec in H. discriminate.
  - refine (proj1 (extract_key_info_spec ascii_lower ascii_upper
              (lit "I'm sorry, can't help") (lit "ISSUES")) _).
    right. apply contains_spec. reflexivity.
  - refine (proj2 (proj2 (extract_key_info_spec ascii_lower ascii_upper
              (lit "SUMMARY: ok") (lit "DECISION")) _ _) _).
    + discriminate.
    + apply contains_false. reflexivity.
    + intros l [<- | []] [Hm _]. apply contains_spec in Hm. discriminate.
Defined.

(** C2 as written fails: the first line carrying the label has no colon,
    yet the result is not "No issues" but the value of a later line. *)
Lemma extract_key_info_passes_colonless_line :
  let result := lit "ISSUES" ++ nl ++ lit "ISSUES: x" in
  let keyword := lit "ISSUES" in
  result <> []
  /\ contains (lit "sorry") (ascii_lower result) = false
  /\ nth 0 (split_on 10%N result) [] = lit "ISSUES"
  /\ contains (ascii_upper keyword) (ascii_upper (lit "ISSUES")) = true
  /\ has_char colon (lit "ISSUES") = false
  /\ extract_key_info ascii_lower ascii_upper result keyword = lit "x"
  /\ extract_key_info ascii_lower ascii_upper result keyword <> sentinel.
Proof. repeat split; discriminate. Qed.

Section PromptFacts.

(** Text between a head and a tail that show no whitespace at the outer
    ends is left alone by [strip]. *)
Lemma trimmed_wrap h mid f :
  h <> [] -> head_ok h -> f <> [] -> head_ok (rev f) ->
  trimmed (h ++ mid ++ f).
Proof.
  intros Hh Hh' Hf Hf'. split.
  - destruct h as [|c h]; [congruence | exact Hh'].
  - rewrite !rev_app_distr.
    destruct (rev f) as [|d r] eqn:E; [|exact Hf'].
    apply (f_equal (@rev N)) in E. rewrite rev_involutive in E.
    simpl in E. congruence.
Qed.

Lemma strip_nonempty c s : is_space c = false -> strip (c :: s) <> [].
Proof.
  intros H E. apply strip_nil_iff in E. simpl in E. rewrite H in E.
  discriminate.
Qed.

(** The final [prompt.strip()] of the style review prompt removes
    nothing. *)
Lemma style_prompt_eq added_code deleted_code full_function_code function_name :
  generate_style_review_prompt
    added_code deleted_code full_function_code function_name
  = style_header
      ++ instruction_context (truthy (format_blocks added_code))
           (truthy (format_blocks deleted_code))
      ++ nl ++ nl
      ++ context_section (truthy (format_blocks added_code))
           (truthy (format_blocks deleted_code))
           full_function_code function_name
      ++ changes_section (format_blocks added_code)
           (format_blocks deleted_code)
      ++ style_footer.
Proof.
  unfold generate_style_review_prompt. cbv zeta.
  apply strip_id.
  match goal with
  | |- trimmed (?h ++ ?a ++ ?b ++ ?c ++ ?d ++ ?e ++ ?f) =>
      replace (h ++ a ++ b ++ c ++ d ++ e ++ f)
        with (h ++ (a ++ b ++ c ++ d ++ e) ++ f)
        by (now rewrite <- !app_assoc)
  end.
  apply trimmed_wrap; try discriminate; reflexivity.
Qed.

(** The blocks depend on the fragments' code alone. *)
Lemma format_blocks_code_only cs : forall cs',
  map chunk_code cs = map chunk_code cs' ->
  format_blocks cs = format_blocks cs'.
Proof.
  induction cs as [|c cs IH]; intros [|c' cs'] H; try discriminate;
    [reflexivity|].
  simpl in H. injection H as Hc Hcs. simpl. rewrite Hc.
  now rewrite (IH cs' Hcs).
Qed.

End PromptFacts.

(** C3.  With full-function text that is not empty: when there are deletion
    blocks and no addition blocks, the prompt's instruction sentence is
    followed by " The function shown above is the current state after the
    removal." and the context section is headed "Current function `<name>`
    (after removal):"; when there are addition blocks, with or without
    deletion blocks, the context section is headed "Full function
    `<name>`:" and the instruction sentence has no addition; when there
    are neither, the prompt has no context section, only the line "No code
    changes detected." between header and footer. *)
Theorem style_prompt_context_policy
    (added_code deleted_code : list chunk)
    (full_function_code function_name : str) :
  full_function_code <> [] ->
  (format_blocks added_code = [] -> format_blocks deleted_code <> [] ->
   generate_style_review_prompt
     added_code deleted_code full_function_code function_name
   = style_header
       ++ lit " The function shown above is the current state after the removal."
       ++ nl ++ nl
       ++ (lit "Current function `" ++ function_name
             ++ lit "` (after removal):" ++ nl
             ++ lit "```python" ++ nl ++ _clean_code full_function_code
             ++ nl ++ lit "```" ++ nl)
       ++ changes_section [] (format_blocks deleted_code)
       ++ style_footer)
  /\ (format_blocks added_code <> [] ->
      generate_style_review_prompt
        added_code deleted_code full_function_code function_name
      = style_header
          ++ nl ++ nl
          ++ (lit "Full function `" ++ function_name ++ lit "`:" ++ nl
                ++ lit "```python" ++ nl ++ _clean_code full_function_code
                ++ nl ++ lit "```" ++ nl)
          ++ changes_section (format_blocks added_code)
               (format_blocks deleted_code)
          ++ style_footer)
  /\ (format_blocks added_code = [] -> format_blocks deleted_code = [] ->
      generate_style_review_prompt
        added_code deleted_code full_function_code function_name
      = style_header
          ++ nl ++ nl
          ++ lit "No code changes detected." ++ nl
          ++ style_footer).
Proof.
  intros Hfull. apply truthy_true in Hfull.
  rewrite style_prompt_eq. unfold context_section, instruction_context.
  rewrite Hfull. split; [|split].
  - intros -> Hd. apply truthy_true in Hd. rewrite Hd. reflexivity.
  - intros Ha. apply truthy_true in Ha. rewrite Ha.
    rewrite andb_false_r. reflexivity.
  - intros -> ->. reflexivity.
Qed.

Lemma style_prompt_context_policy_witness :
  let removed := [Block (mkCodeBlock 3 3 (lit "    x = 1") 1)] in
  let added := [Mapping (mkRawFragment (Some (lit "y = 2")) None None None)] in
  let full := lit "def f():" ++ nl ++ lit "    return 0" in
  (generate_style_review_prompt [] removed full (lit "f")
   = style_header
       ++ lit " The function shown above is the current state after the removal."
       ++ nl ++ nl
       ++ (lit "Current function `" ++ lit "f"
             ++ lit "` (after removal):" ++ nl
             ++ lit "```python" ++ nl ++ _clean_code full
             ++ nl ++ lit "```" ++ nl)
       ++ changes_section [] (format_blocks removed)
       ++ style_footer)
  /\ (generate_style_review_prompt added removed full (lit "f")
      = style_header
          ++ nl ++ nl
          ++ (lit "Full function `" ++ lit "f" ++ lit "`:" ++ nl
                ++ lit "```python" ++ nl ++ _clean_code full
                ++ nl ++ lit "```" ++ nl)
          ++ changes_section (format_blocks added) (format_blocks removed)
          ++ style_footer)
  /\ (generate_style_review_prompt [] [] full (lit "f")
      = style_header
          ++ nl ++ nl
          ++ lit "No code changes detected." ++ nl
          ++ style_footer).
Proof.
  intros removed added full.
  assert (Hfull : full <> []) by discriminate.
  split; [|split].
  - apply (proj1 (style_prompt_context_policy [] removed full (lit "f")
                    Hfull)); [reflexivity | discriminate].
  - apply (proj1 (proj2 (style_prompt_context_policy added removed full
                           (lit "f") Hfull))); discriminate.
  - apply (proj2 (proj2 (style_prompt_context_policy [] [] full
                           (lit "f") Hfull))); reflexivity.
Defined.

(** C9.  Two calls whose added lists agree fragment by fragment on the code
    text, and whose deleted lists do, return the same style review prompt,
    whatever the fragments' shape, start line, end line and line count; the
    same holds for the contextual review prompt on payloads that differ
    only in such fragments. *)
Theorem style_prompt_reads_code_only
    (added added' deleted deleted' : list chunk)
    (full_function_code function_name : str)
    (payload_full payload_name : option str) :
  map chunk_code added = map chunk_code added' ->
  map chunk_code deleted = map chunk_code deleted' ->
  generate_style_review_prompt added deleted full_function_code function_name
  = generate_style_review_prompt
      added' deleted' full_function_code function_name
  /\ generate_contextual_review_prompt
       (mkPayload (Some added) (Some deleted) payload_full payload_name)
     = generate_contextual_review_prompt
         (mkPayload (Some added') (Some deleted') payload_full payload_name).
Proof.
  intros Ha Hd.
  unfold generate_contextual_review_prompt, generate_style_review_prompt.
  cbn [payload_added_code payload_deleted_code payload_full_function_code
       payload_function_name].
  rewrite (format_blocks_code_only added added' Ha).
  rewrite (format_blocks_code_only deleted deleted' Hd).
  split; reflexivity.
Qed.

Lemma style_prompt_reads_code_only_witness :
  let a := [Block (mkCodeBlock 1 2 (lit "x = 1") 2)] in
  let a' := [Mapping (mkRawFragment (Some (lit "x = 1")) (Some 40%Z)
                        None (Some 7%Z))] in
  let d := [Block (mkCodeBlock 5 5 (lit "y = 2") 1)] in
  let d' := [Block (mkCodeBlock 9 30 (lit "y = 2") 0)] in
  generate_style_review_prompt a d (lit "def f(): pass") (lit "f")
  = generate_style_review_prompt a' d' (lit "def f(): pass") (lit "f")
  /\ generate_contextual_review_prompt
       (mkPayload (Some a) (Some d) None (Some (lit "f")))
     = generate_contextual_review_prompt
         (mkPayload (Some a') (Some d') None (Some (lit "f"))).
Proof.
  intros a a' d d'.
  apply (style_prompt_reads_code_only a a' d d'); reflexivity.
Defined.

(** The final [prompt.strip()] of the duplication check prompt removes
    nothing. *)
Lemma duplication_check_template_trimmed name snippet file sc similar :
  trimmed (duplication_check_template name snippet file sc similar).
Proof.
  unfold duplication_check_template. split.
  - reflexivity.
  - rewrite !rev_app_distr. reflexivity.
Qed.

Lemma duplication_check_template_nonempty name snippet file sc similar :
  duplication_check_template name snippet file sc similar <> [].
Proof. discriminate. Qed.

Lemma duplication_check_prompt_fill code_snippet m ms function_name :
  blank code_snippet = false ->
  generate_duplication_check_prompt code_snippet (m :: ms) function_name
  = duplication_check_template function_name
      (_clean_code code_snippet) (get_file m) (get_similarity m)
      (_clean_code (get_code m)).
Proof.
  intros Hb. unfold generate_duplication_check_prompt.
  rewrite truthy_strip, Hb. cbn [negb truthy orb]. cbv zeta.
  apply strip_id, duplication_check_template_trimmed.
Qed.

Lemma duplication_check_prompt_blank code_snippet similar_codes function_name :
  blank code_snippet = true ->
  generate_duplication_check_prompt code_snippet similar_codes function_name
  = [].
Proof.
  intros Hb. unfold generate_duplication_check_prompt.
  now rewrite truthy_strip, Hb.
Qed.

(** C5.  The duplication check prompt of the full generator is the empty
    str exactly when the snippet is blank (empty or whitespace only) or the
    list of matches is empty.  In every other case it is the text below,
    which is not empty: the fixed instructions around the function name,
    the cleaned snippet, and the file, the score and the cleaned code of
    the first match, each with its default when the key is absent; the
    matches after the first do not enter it. *)
Theorem duplication_check_prompt_spec
    (code_snippet : str) (similar_codes : list SimilarCodeMatch)
    (function_name : str) :
  (generate_duplication_check_prompt code_snippet similar_codes function_name
   = []
   <-> blank code_snippet = true \/ similar_codes = [])
  /\ (forall most_similar others,
        blank code_snippet = false ->
        similar_codes = most_similar :: others ->
        generate_duplication_check_prompt
          code_snippet similar_codes function_name
        = lit "Check for code duplication. Respond EXACTLY in the format below."
          ++ nl ++ nl
          ++ lit "Current code from `" ++ function_name ++ lit "`:" ++ nl
          ++ lit "```python" ++ nl ++ _clean_code code_snippet ++ nl
          ++ lit "```" ++ nl
          ++ nl
          ++ lit "Similar code from `"
          ++ match sim_file most_similar with
             | Some f => f
             | None => lit "unknown_file"
             end
          ++ lit "` ("
          ++ match sim_similarity most_similar with
             | Some (ScoreInt z) => lit (NilEmpty.string_of_int (Z.to_int z))
             | Some (ScoreStr t) => t
             | None => lit "N/A"
             end
          ++ lit "% similar):" ++ nl
          ++ lit "```python" ++ nl
          ++ _clean_code match sim_code most_similar with
                         | Some c => c
                         | None => []
                         end
          ++ nl ++ lit "```" ++ nl
          ++ nl
          ++ lit "You MUST respond in this EXACT format:" ++ nl ++ nl
          ++ lit "DUPLICATION LEVEL: [None/Low/Medium/High]" ++ nl ++ nl
          ++ lit "ANALYSIS: [Are these actual duplicates? One sentence.]"
          ++ nl ++ nl
          ++ lit "RECOMMENDATION: [What action to take? One sentence.]"
          ++ nl ++ nl
          ++ lit "Do not add extra text."
        /\ generate_duplication_check_prompt
             code_snippet similar_codes function_name <> []
        /\ generate_duplication_check_prompt
             code_snippet similar_codes function_name
           = generate_duplication_check_prompt
               code_snippet [most_similar] function_name).
Proof.
  split.
  - split.
    + intros H. destruct similar_codes as [|m ms]; [now right|]. left.
      destruct (blank code_snippet) eqn:Hb; [reflexivity|].
      rewrite (duplication_check_prompt_fill _ m ms _ Hb) in H.
      now apply duplication_check_template_nonempty in H.
    + intros [Hb | ->].
      * now apply duplication_check_prompt_blank.
      * unfold generate_duplication_check_prompt. now rewrite orb_true_r.
  - intros m ms Hb ->. rewrite !(duplication_check_prompt_fill _ _ _ _ Hb).
    split; [|split; [apply duplication_check_template_nonempty|reflexivity]].
    unfold duplication_check_template, get_file, get_similarity, get_code,
      format_score.
    destruct m as [file code0 [[z|t]|]]; reflexivity.
Qed.

Lemma duplication_check_prompt_spec_witness :
  let m := mkSimilarCodeMatch (Some (lit "util.py")) (Some (lit "  y = 1"))
             (Some (ScoreInt 87)) in
  let m2 := mkSimilarCodeMatch None None None in
  generate_duplication_check_prompt (lit " x = 1") [m; m2] (lit "f")
  = lit "Check for code duplication. Respond EXACTLY in the format below."
    ++ nl ++ nl
    ++ lit "Current code from `f`:" ++ nl
    ++ lit "```python" ++ nl ++ lit "x = 1" ++ nl ++ lit "```" ++ nl
    ++ nl
    ++ lit "Similar code from `util.py` (87% similar):" ++ nl
    ++ lit "```python" ++ nl ++ lit "y = 1" ++ nl ++ lit "```" ++ nl
    ++ nl
    ++ lit "You MUST respond in this EXACT format:" ++ nl ++ nl
    ++ lit "DUPLICATION LEVEL: [None/Low/Medium/High]" ++ nl ++ nl
    ++ lit "ANALYSIS: [Are these actual duplicates? One sentence.]"
    ++ nl ++ nl
    ++ lit "RECOMMENDATION: [What action to take? One sentence.]"
    ++ nl ++ nl
    ++ lit "Do not add extra text."
  /\ generate_duplication_check_prompt (lit " x = 1") [m; m2] (lit "f") <> []
  /\ generate_duplication_check_prompt (lit " x = 1") [m; m2] (lit "f")
     = generate_duplication_check_prompt (lit " x = 1") [m] (lit "f").
Proof.
  intros m m2.
  exact (proj2 (duplication_check_prompt_spec (lit " x = 1") [m; m2]
                  (lit "f")) m [m2] eq_refl eq_refl).
Defined.

(** C6.  The review prompt of the minimal generator is the same for any two
    pairs of lists whose first added fragments carry the same code and
    whose first deleted fragments do: what follows the first fragment of
    either list has no effect.  The prompt always ends with the fixed
    response format of the three fields ISSUES, APPROVE and REASON. *)
Theorem minimal_review_prompt_first_only
    (added added' deleted deleted' : list chunk) (function_name : str) :
  map chunk_code (firstn 1 added) = map chunk_code (firstn 1 added') ->
  map chunk_code (firstn 1 deleted) = map chunk_code (firstn 1 deleted') ->
  MinimalCodeReviewPrompts.generate_review_prompt added deleted function_name
  = MinimalCodeReviewPrompts.generate_review_prompt
      added' deleted' function_name
  /\ exists body,
      MinimalCodeReviewPrompts.generate_review_prompt
        added deleted function_name
      = body
          ++ nl ++ lit "Format your response EXACTLY like this:" ++ nl ++ nl
          ++ lit "ISSUES: [List problems or " ++ dq ++ lit "None" ++ dq
          ++ lit "]" ++ nl
          ++ lit "APPROVE: [Yes/No]" ++ nl
          ++ lit "REASON: [One sentence]" ++ nl ++ nl
          ++ lit "No other text allowed.".
Proof.
  intros Ha Hd. unfold MinimalCodeReviewPrompts.generate_review_prompt.
  split.
  - destruct added as [|a ra], added' as [|a' ra'],
             deleted as [|d rd], deleted' as [|d' rd'];
      cbn [firstn map] in Ha, Hd; try discriminate;
      try (injection Ha as Ha); try (injection Hd as Hd);
      cbv zeta; rewrite ?Ha, ?Hd; reflexivity.
  - cbv zeta. eexists. reflexivity.
Qed.

Lemma minimal_review_prompt_first_only_witness :
  let a := Block (mkCodeBlock 1 1 (lit "x = 1") 1) in
  let a' := Mapping (mkRawFragment (Some (lit "x = 1")) None None None) in
  let other := Block (mkCodeBlock 8 9 (lit "z = 3") 2) in
  MinimalCodeReviewPrompts.generate_review_prompt
    [a; other; other] [other; a] (lit "f")
  = MinimalCodeReviewPrompts.generate_review_prompt [a'] [other] (lit "f").
Proof.
  intros a a' other.
  exact (proj1 (minimal_review_prompt_first_only
                  [a; other; other] [a'] [other; a] [other] (lit "f")
                  eq_refl eq_refl)).
Defined.

Lemma minimal_clean_code_blank_snippet code :
  blank code = true -> MinimalCodeReviewPrompts._clean_code code = [].
Proof.
  intros Hb. unfold MinimalCodeReviewPrompts._clean_code.
  apply strip_nil_iff in Hb. rewrite Hb. now destruct code.
Qed.

(** C10.  The duplication prompt of the minimal generator returns the
    canned text "No similar code found. ..." for an empty list of matches
    and for that list only: for every list with a first match it returns
    the comparison text below, filled with the cleaned snippet and the
    cleaned code of the first match, which differs from the canned text.
    A blank snippet makes no exception: the comparison text is returned
    with an empty CODE A block, where the full generator returns the empty
    str. *)
Theorem minimal_duplication_prompt_cases
    (code_snippet : str) (first : SimilarCodeMatch)
    (others : list SimilarCodeMatch) (function_name : str) :
  MinimalCodeReviewPrompts.generate_duplication_prompt code_snippet []
  = lit "No similar code found." ++ nl ++ nl
    ++ lit "DUPLICATE: No" ++ nl
    ++ lit "ACTION: None needed"
  /\ MinimalCodeReviewPrompts.generate_duplication_prompt
       code_snippet (first :: others)
     = lit "Compare these code blocks:" ++ nl ++ nl
       ++ lit "CODE A:" ++ nl
       ++ lit "```python" ++ nl ++ MinimalCodeReviewPrompts._clean_code code_snippet ++ nl ++ lit "```"
       ++ nl ++ nl
       ++ lit "CODE B:" ++ nl
       ++ lit "```python" ++ nl
       ++ MinimalCodeReviewPrompts._clean_code
                 match sim_code first with
                 | Some c => c
                 | None => []
                 end
       ++ nl ++ lit "```"
       ++ nl ++ nl
       ++ lit "Response format:" ++ nl
       ++ lit "DUPLICATE: [Yes/No]" ++ nl
       ++ lit "ACTION: [Combine/Keep separate/Review needed]"
  /\ MinimalCodeReviewPrompts.generate_duplication_prompt
       code_snippet (first :: others)
     <> MinimalCodeReviewPrompts.generate_duplication_prompt code_snippet []
  /\ (blank code_snippet = true ->
      MinimalCodeReviewPrompts.generate_duplication_prompt
        code_snippet (first :: others)
      = lit "Compare these code blocks:" ++ nl ++ nl
        ++ lit "CODE A:" ++ nl
        ++ lit "```python" ++ nl ++ [] ++ nl ++ lit "```"
        ++ nl ++ nl
        ++ lit "CODE B:" ++ nl
        ++ lit "```python" ++ nl
        ++ MinimalCodeReviewPrompts._clean_code
                   match sim_code first with
                   | Some c => c
                   | None => []
                   end
        ++ nl ++ lit "```"
        ++ nl ++ nl
        ++ lit "Response format:" ++ nl
        ++ lit "DUPLICATE: [Yes/No]" ++ nl
        ++ lit "ACTION: [Combine/Keep separate/Review needed]"
      /\ MinimalCodeReviewPrompts.generate_duplication_prompt
           code_snippet (first :: others) <> []
      /\ generate_duplication_check_prompt
           code_snippet (first :: others) function_name = []).
Proof.
  split; [reflexivity|]. split; [reflexivity|]. split; [discriminate|].
  intros Hb. split; [|split].
  - unfold MinimalCodeReviewPrompts.generate_duplication_prompt.
    cbn [truthy negb]. cbv zeta.
    unfold MinimalCodeReviewPrompts.comparison_template.
    rewrite (minimal_clean_code_blank_snippet code_snippet Hb). reflexivity.
  - discriminate.
  - now apply duplication_check_prompt_blank.
Qed.

Lemma minimal_duplication_prompt_cases_witness :
  let m := mkSimilarCodeMatch None (Some (lit "y = 1")) None in
  MinimalCodeReviewPrompts.generate_duplication_prompt (lit "   ") [m]
  = lit "Compare these code blocks:" ++ nl ++ nl
    ++ lit "CODE A:" ++ nl
    ++ lit "```python" ++ nl ++ [] ++ nl ++ lit "```"
    ++ nl ++ nl
    ++ lit "CODE B:" ++ nl
    ++ lit "```python" ++ nl ++ lit "y = 1" ++ nl ++ lit "```"
    ++ nl ++ nl
    ++ lit "Response format:" ++ nl
    ++ lit "DUPLICATE: [Yes/No]" ++ nl
    ++ lit "ACTION: [Combine/Keep separate/Review needed]"
  /\ MinimalCodeReviewPrompts.generate_duplication_prompt (lit "   ") [m]
     <> []
  /\ generate_duplication_check_prompt (lit "   ") [m] (lit "f") = [].
Proof.
  intros m.
  exact (proj2 (proj2 (proj2 (minimal_duplication_prompt_cases
                                (lit "   ") m [] (lit "f")))) eq_refl).
Defined.

(* ================================================================== *)
(** * The documented examples, run on the model *)
(* ================================================================== *)

Example extract_issues_line :
  extract_key_info ascii_lower ascii_upper
    (lit "SUMMARY: ok" ++ nl ++ lit "ISSUES: none found") (lit "ISSUES")
  = lit "none found".
Proof. reflexivity. Qed.

Example extract_empty_text :
  extract_key_info ascii_lower ascii_upper [] (lit "ISSUES") = lit "No issues".
Proof. reflexivity. Qed.

Example clean_code_blank_text :
  _clean_code (lit "   " ++ nl ++ lit "  ") = [].
Proof. reflexivity. Qed.

Example clean_code_blank_line_kept_empty :
  _clean_code (nl ++ lit "a" ++ nl ++ lit "   " ++ nl ++ lit "  b  " ++ nl)
  = lit "a" ++ nl ++ nl ++ lit "  b".
Proof. reflexivity. Qed.

Example duplication_check_no_matches :
  generate_duplication_check_prompt (lit "x = 1") [] (lit "f") = [].
Proof. reflexivity. Qed.

Example style_prompt_added_only :
  generate_style_review_prompt
    [Mapping (mkRawFragment (Some (lit "def f():" ++ nl ++ lit "    pass"))
                None None None)]
    [] [] (lit "f")
  = style_header ++ nl ++ nl
      ++ lit "### ADDED:" ++ nl
      ++ lit "```python" ++ nl
      ++ lit "def f():" ++ nl ++ lit "    pass" ++ nl
      ++ lit "```" ++ nl
      ++ style_footer.
Proof. reflexivity. Qed.

(* ================================================================== *)
(** * Further properties of the full generator's normalizer *)
(* ================================================================== *)

Section NormalizerFacts.

Lemma length_lstrip s : length (lstrip s) <= length s.
Proof.
  destruct (lstrip_split s) as [p [E _]].
  rewrite E at 2. rewrite length_app. lia.
Qed.

Lemma length_rstrip s : length (rstrip s) <= length s.
Proof.
  destruct (rstrip_split s) as [q [E _]].
  rewrite E at 2. rewrite length_app. lia.
Qed.

Lemma length_strip s : length (strip s) <= length s.
Proof.
  unfold strip. pose proof (length_rstrip (lstrip s)).
  pose proof (length_lstrip s). lia.
Qed.

Lemma length_join_nl_cons p ps :
  length (join nl (p :: ps)) <= length p + 1 + length (join nl ps).
Proof.
  destruct ps as [|q ps].
  - simpl. lia.
  - change (join nl (p :: q :: ps)) with (p ++ nl ++ join nl (q :: ps)).
    rewrite !length_app. simpl. lia.
Qed.

(** Joining the lines of a text with line feeds gives back no more
    characters than the text had. *)
Lemma length_join_splitlines_from n : forall s cur,
  length s <= n ->
  length (join nl (splitlines_from cur s)) <= length cur + length s.
Proof.
  induction n as [|n IH]; intros s cur Hlen.
  - destruct s; [|simpl in Hlen; lia].
    destruct cur; simpl; [lia|]. rewrite length_app, length_rev. simpl. lia.
  - destruct s as [|c s].
    + destruct cur; simpl; [lia|]. rewrite length_app, length_rev. simpl. lia.
    + simpl in Hlen. cbn [splitlines_from].
      destruct (is_linebreak c).
      * match goal with
        | |- length (join nl (_ :: ?rest)) <= _ =>
            assert (Hrest : length (join nl rest) <= length s)
        end.
        { destruct (c =? 13)%N.
          - destruct s as [|d s'].
            + simpl. lia.
            + simpl in Hlen. destruct (d =? 10)%N.
              * pose proof (IH s' [] ltac:(lia)). simpl in *. lia.
              * pose proof (IH (d :: s') [] ltac:(simpl; lia)). simpl in *.
                lia.
          - pose proof (IH s [] ltac:(lia)). simpl in *. lia. }
        etransitivity; [apply length_join_nl_cons|].
        rewrite length_rev. simpl. lia.
      * pose proof (IH s (c :: cur) ltac:(lia)). simpl in *. lia.
Qed.

Lemma length_keep_or_empty line : length (keep_or_empty line) <= length line.
Proof.
  unfold keep_or_empty. destruct (truthy (strip line)); simpl; lia.
Qed.

Lemma length_join_map_keep ls :
  length (join nl (map keep_or_empty ls)) <= length (join nl ls).
Proof.
  induction ls as [|p ps IH]; [simpl; lia|].
  destruct ps as [|q ps].
  - simpl. apply length_keep_or_empty.
  - change (join nl (map keep_or_empty (p :: q :: ps)))
      with (keep_or_empty p ++ nl ++ join nl (map keep_or_empty (q :: ps))).
    change (join nl (p :: q :: ps)) with (p ++ nl ++ join nl (q :: ps)).
    rewrite !length_app. pose proof (length_keep_or_empty p). lia.
Qed.

Lemma in_join_nl c ls :
  In c (join nl ls) -> c = 10%N \/ exists l, In l ls /\ In c l.
Proof.
  induction ls as [|p ps IH]; [intros []|].
  destruct ps as [|q ps].
  - simpl. intros H. right. exists p. split; [now left | exact H].
  - change (join nl (p :: q :: ps)) with (p ++ nl ++ join nl (q :: ps)).
    rewrite !in_app_iff. intros [H | [H | H]].
    + right. exists p. split; [now left | exact H].
    + left. destruct H as [H | []]. now symmetry.
    + destruct (IH H) as [E | [l [Hl Hc]]]; [now left|].
      right. exists l. split; [now right | exact Hc].
Qed.

End NormalizerFacts.

Lemma clean_code_nil_iff (code : str) :
  _clean_code code = [] <-> blank code = true.
Proof.
  rewrite CleanCode.clean_code_eq, <- strip_nil_iff.
  destruct (strip code) as [|c0 t0] eqn:E.
  - split; reflexivity.
  - assert (Hne : strip code <> []) by (rewrite E; discriminate).
    destruct (trimmed_ends _ (strip_trimmed code) Hne)
      as [[c [t [E1 Hc]]] _].
    rewrite E in E1. rewrite E1.
    destruct (splitlines_first c t Hc) as [l [ls ->]].
    cbn [map]. rewrite (CleanCode.keep_nonblank_head c l Hc).
    destruct (join_first nl (c :: l) (map keep_or_empty ls)) as [post ->].
    split; discriminate.
Qed.

(** X1.  The normalizer returns the empty str exactly for the inputs made
    of whitespace only, the empty input among them. *)
Theorem clean_code_empty_iff_blank (code : str) :
  _clean_code code = [] <-> blank code = true.
Proof. exact (clean_code_nil_iff code). Qed.

(** X2.  The text the normalizer returns has no whitespace at either end,
    holds no line boundary other than the line feed, and none of its lines
    is made of whitespace only: a line is empty or has a character that is
    not whitespace. *)
Theorem clean_code_normal_form (code : str) :
  trimmed (_clean_code code)
  /\ (forall c, In c (_clean_code code) -> is_linebreak c = true ->
                c = 10%N)
  /\ Forall (fun line => line = [] \/ blank line = false)
       (splitlines (_clean_code code)).
Proof.
  split; [apply CleanCode.clean_code_trimmed|]. split.
  - rewrite CleanCode.clean_code_eq. intros c Hin Hlb.
    destruct (in_join_nl c _ Hin) as [E | [l [Hl Hc]]]; [exact E|].
    exfalso. apply in_map_iff in Hl. destruct Hl as [y [<- Hy]].
    pose proof (splitlines_one_line (strip code)) as Hall.
    rewrite Forall_forall in Hall.
    pose proof (CleanCode.keep_or_empty_one_line y (Hall y Hy)) as Hone.
    unfold one_line in Hone. rewrite forallb_forall in Hone.
    specialize (Hone c Hc). rewrite Hlb in Hone. discriminate.
  - rewrite CleanCode.clean_code_lines. apply Forall_forall.
    intros x Hx. apply in_map_iff in Hx. destruct Hx as [y [<- _]].
    unfold keep_or_empty. destruct (truthy (strip y)) eqn:E; [|now left].
    right. rewrite truthy_strip in E. now apply negb_true_iff in E.
Qed.

(** X3.  The normalizer never returns more characters than it was
    given. *)
Theorem clean_code_length (code : str) :
  length (_clean_code code) <= length code.
Proof.
  rewrite CleanCode.clean_code_eq.
  etransitivity; [apply length_join_map_keep|].
  unfold splitlines.
  pose proof (length_join_splitlines_from (length (strip code))
                (strip code) [] (le_n _)) as H.
  pose proof (length_strip code). simpl in H. lia.
Qed.

(** X4.  The lines of the normalizer's result are the lines of the stripped
    input, in order, each kept character for character unless it is made
    of whitespace only, in which case it is empty; the result is these
    lines joined by line feeds. *)
Theorem clean_code_keeps_lines (code : str) :
  _clean_code code = join nl (map keep_or_empty (splitlines (strip code)))
  /\ splitlines (_clean_code code)
     = map keep_or_empty (splitlines (strip code))
  /\ length (splitlines (_clean_code code))
     = length (splitlines (strip code)).
Proof.
  split; [apply CleanCode.clean_code_eq|].
  rewrite CleanCode.clean_code_lines. split; [reflexivity|].
  apply length_map.
Qed.

(* ================================================================== *)
(** * Further properties of the style review prompt *)
(* ================================================================== *)

Section StylePromptFacts.

Lemma clean_code_truthy code : truthy (_clean_code code) = negb (blank code).
Proof.
  destruct (blank code) eqn:E.
  - apply clean_code_nil_iff in E. now rewrite E.
  - destruct (_clean_code code) eqn:F; [|reflexivity].
    apply clean_code_nil_iff in F. congruence.
Qed.

(** The formatting loop as a filter followed by a map. *)
Lemma format_blocks_filter chunks :
  format_blocks chunks
  = map (fun c => lit "```python" ++ nl ++ _clean_code c ++ nl ++ lit "```")
      (filter (fun c => negb (blank c)) (map chunk_code chunks)).
Proof.
  induction chunks as [|chunk rest IH]; [reflexivity|].
  cbn [format_blocks map filter]. cbv zeta.
  rewrite clean_code_truthy.
  destruct (negb (blank (chunk_code chunk))); cbn [map]; now rewrite IH.
Qed.

End StylePromptFacts.

(** X5.  The style review prompt renders one fenced block per fragment
    whose code has a character that is not whitespace, in the order of the
    list; fragments with blank code, and mappings without a code key, give
    no block. *)
Theorem format_blocks_drops_blank (chunks : list chunk) :
  format_blocks chunks
  = map (fun c => lit "```python" ++ nl ++ _clean_code c ++ nl ++ lit "```")
      (filter (fun c => negb (blank c)) (map chunk_code chunks))
  /\ (forall s e n rest,
        format_blocks (Mapping (mkRawFragment None s e n) :: rest)
        = format_blocks rest)
  /\ length (format_blocks chunks) <= length chunks.
Proof.
  split; [apply format_blocks_filter|]. split; [reflexivity|].
  rewrite format_blocks_filter, length_map.
  etransitivity; [apply filter_length_le|]. now rewrite length_map.
Qed.

(** X6.  The style review prompt, and the contextual review prompt with
    it, is the same for any two pairs of lists that agree once the
    fragments with blank code are left out: such fragments, wherever they
    stand, have no effect on the prompt. *)
Theorem style_prompt_ignores_blank_fragments
    (added added' deleted deleted' : list chunk)
    (full_function_code function_name : str) :
  filter (fun c => negb (blank c)) (map chunk_code added)
  = filter (fun c => negb (blank c)) (map chunk_code added') ->
  filter (fun c => negb (blank c)) (map chunk_code deleted)
  = filter (fun c => negb (blank c)) (map chunk_code deleted') ->
  generate_style_review_prompt added deleted full_function_code function_name
  = generate_style_review_prompt
      added' deleted' full_function_code function_name
  /\ generate_contextual_review_prompt
       (mkPayload (Some added) (Some deleted)
          (Some full_function_code) (Some function_name))
     = generate_contextual_review_prompt
         (mkPayload (Some added') (Some deleted')
            (Some full_function_code) (Some function_name)).
Proof.
  intros Ha Hd.
  unfold generate_contextual_review_prompt, generate_style_review_prompt.
  cbn [payload_added_code payload_deleted_code payload_full_function_code
       payload_function_name].
  rewrite !format_blocks_filter, Ha, Hd. split; reflexivity.
Qed.

Lemma style_prompt_ignores_blank_fragments_witness :
  let a := Block (mkCodeBlock 1 1 (lit "x = 1") 1) in
  let b := Block (mkCodeBlock 2 2 (lit "   ") 1) in
  let m := Mapping (mkRawFragment None (Some 3%Z) None None) in
  generate_style_review_prompt [b; a; m] [m] (lit "def f(): pass") (lit "f")
  = generate_style_review_prompt [a] [] (lit "def f(): pass") (lit "f").
Proof.
  intros a b m.
  exact (proj1 (style_prompt_ignores_blank_fragments
                  [b; a; m] [a] [m] [] (lit "def f(): pass") (lit "f")
                  eq_refl eq_refl)).
Defined.

(** X7.  With deletion blocks, no addition blocks and empty full-function
    text, the prompt has no context section, yet its instruction sentence
    and its REMOVED heading still refer to the function shown above. *)
Theorem style_prompt_deletions_without_context
    (added_code deleted_code : list chunk) (function_name : str) :
  format_blocks added_code = [] -> format_blocks deleted_code <> [] ->
  generate_style_review_prompt added_code deleted_code [] function_name
  = style_header
      ++ lit " The function shown above is the current state after the removal."
      ++ nl ++ nl
      ++ lit "### REMOVED (these lines were deleted from the function above):"
      ++ nl ++ join nl (format_blocks deleted_code) ++ nl
      ++ style_footer.
Proof.
  intros Ha Hd. rewrite style_prompt_eq, Ha.
  apply truthy_true in Hd.
  unfold context_section, instruction_context, changes_section.
  rewrite Hd. cbn [truthy negb andb orb app]. 
  destruct (format_blocks deleted_code) as [|b bs]; [discriminate|].
  cbv zeta. cbn [truthy negb andb app].
  match goal with
  | |- context [truthy (lit ?x ++ ?r)] =>
      change (truthy (lit x ++ r)) with true
  end.
  cbn [negb]. rewrite <- !app_assoc. reflexivity.
Qed.

Lemma style_prompt_deletions_without_context_witness :
  let d := [Block (mkCodeBlock 4 4 (lit "  y = 2") 1)] in
  generate_style_review_prompt [] d [] (lit "f")
  = style_header
      ++ lit " The function shown above is the current state after the removal."
      ++ nl ++ nl
      ++ lit "### REMOVED (these lines were deleted from the function above):"
      ++ nl ++ join nl (format_blocks d) ++ nl
      ++ style_footer.
Proof.
  intros d.
  apply (style_prompt_deletions_without_context [] d (lit "f"));
    [reflexivity | discriminate].
Defined.

(** X8.  Whatever the arguments, the style review prompt starts with the
    instruction header, ends with the response format of the four fields
    SUMMARY, ISSUES, IMPROVEMENTS and DECISION, and has no whitespace at
    either end: the final [strip] removes nothing. *)
Theorem style_prompt_frame
    (added_code deleted_code : list chunk)
    (full_function_code function_name : str) :
  (exists body,
      generate_style_review_prompt
        added_code deleted_code full_function_code function_name
      = style_header ++ body ++ style_footer)
  /\ trimmed (generate_style_review_prompt
                added_code deleted_code full_function_code function_name)
  /\ generate_style_review_prompt
       added_code deleted_code full_function_code function_name <> [].
Proof.
  split; [|split].
  - rewrite style_prompt_eq.
    exists (instruction_context (truthy (format_blocks added_code))
              (truthy (format_blocks deleted_code))
            ++ nl ++ nl
            ++ context_section (truthy (format_blocks added_code))
                 (truthy (format_blocks deleted_code))
                 full_function_code function_name
            ++ changes_section (format_blocks added_code)
                 (format_blocks deleted_code)).
    now rewrite <- !app_assoc.
  - unfold generate_style_review_prompt. apply strip_trimmed.
  - rewrite style_prompt_eq. discriminate.
Qed.

(** X9.  The changes section is the line "No code changes detected."
    exactly when there is neither an addition block nor a deletion
    block. *)
Theorem changes_section_none_iff (added_blocks deleted_blocks : list str) :
  changes_section added_blocks deleted_blocks
  = lit "No code changes detected." ++ nl
  <-> added_blocks = [] /\ deleted_blocks = [].
Proof.
  split.
  - unfold changes_section.
    destruct added_blocks as [|a ra], deleted_blocks as [|d rd];
      cbv zeta; cbn [truthy negb andb app]; intros H;
      [now split | discriminate H | discriminate H | discriminate H].
  - intros [-> ->]. reflexivity.
Qed.

(* ================================================================== *)
(** * Further properties of the field extraction *)
(* ================================================================== *)

Section ExtractShape.

Lemma in_lstrip c s : In c (lstrip s) -> In c s.
Proof.
  destruct (lstrip_split s) as [p [E _]]. intros H.
  rewrite E. apply in_or_app. now right.
Qed.

Lemma in_strip c s : In c (strip s) -> In c s.
Proof.
  unfold strip, rstrip. intros H. apply in_rev in H.
  apply in_lstrip in H. apply in_rev in H. now apply in_lstrip.
Qed.

Lemma in_split_once_tail sep c s :
  In c (nth 1 (split_once sep s) []) -> In c s.
Proof.
  induction s as [|a s IH]; simpl; [intros []|].
  destruct (a =? sep)%N.
  - simpl. intros H. now right.
  - destruct (split_once sep s) as [|p ps]; simpl in *.
    + intros [].
    + intros H. right. now apply IH.
Qed.

Lemma split_on_no_sep sep s : forall l, In l (split_on sep s) -> ~ In sep l.
Proof.
  induction s as [|a s IH]; simpl.
  - intros l [<- | []] [].
  - destruct (a =? sep)%N eqn:E.
    + intros l [<- | H]; [intros [] | now apply IH].
    + pose proof (split_on_nonempty sep s) as Hne.
      destruct (split_on sep s) as [|p ps]; [congruence|].
      intros l [<- | H].
      * intros [Ha | Hp].
        -- subst a. rewrite N.eqb_refl in E. discriminate.
        -- apply (IH p); [now left | exact Hp].
      * apply IH. now right.
Qed.

(** The loop returns the sentinel or the stripped tail of one of the
    lines. *)
Lemma scan_lines_result upper keyword lines :
  scan_lines upper keyword lines = sentinel
  \/ exists line,
       In line lines
       /\ scan_lines upper keyword lines
          = strip (nth 1 (split_once colon line) []).
Proof.
  induction lines as [|line rest IH]; [now left|].
  simpl.
  destruct (contains (upper keyword) (upper line)).
  - destruct (has_char colon line).
    + right. exists line. split; [now left | reflexivity].
    + destruct IH as [E | [l [Hl E]]]; [now left|].
      right. exists l. split; [now right | exact E].
  - destruct IH as [E | [l [Hl E]]]; [now left|].
    right. exists l. split; [now right | exact E].
Qed.

Lemma extract_key_info_shape lower upper result keyword :
  trimmed (extract_key_info lower upper result keyword)
  /\ ~ In 10%N (extract_key_info lower upper result keyword).
Proof.
  assert (Hs : trimmed sentinel /\ ~ In 10%N sentinel).
  { split; [split; reflexivity|].
    intros H. apply has_char_spec in H. discriminate. }
  unfold extract_key_info.
  destruct (negb (truthy result) || contains (lit "sorry") (lower result));
    [exact Hs|].
  destruct (scan_lines_result upper keyword (split_on 10%N result))
    as [-> | [line [Hline ->]]]; [exact Hs|].
  split; [apply strip_trimmed|].
  intros H. apply in_strip, in_split_once_tail in H.
  exact (split_on_no_sep 10%N result line Hline H).
Qed.

Lemma full_summary_template_eq lower upper style_result duplication_result
    function_name :
  generate_summary_prompt lower upper
    style_result duplication_result function_name
  = lit "Based on these code review results for function `" ++ function_name
    ++ lit "`, make a final decision:" ++ nl ++ nl
    ++ lit "STYLE REVIEW FOUND: "
    ++ extract_key_info lower upper style_result (lit "ISSUES") ++ nl
    ++ lit "STYLE DECISION: "
    ++ extract_key_info lower upper style_result (lit "DECISION") ++ nl
    ++ lit "DUPLICATION LEVEL: "
    ++ extract_key_info lower upper duplication_result
         (lit "DUPLICATION LEVEL") ++ nl ++ nl
    ++ lit "Your job: Decide if this code change should be approved based on the findings above."
    ++ nl ++ nl
    ++ lit "Response format:" ++ nl
    ++ lit "ISSUES FOUND: [Summarize actual problems found, or " ++ dq
    ++ lit "None" ++ dq ++ lit "]" ++ nl ++ nl
    ++ lit "PRIORITY: [High/Medium/Low]" ++ nl ++ nl
    ++ lit "RECOMMENDATION: [Approve/Request Changes/Needs Discussion]"
    ++ nl ++ nl
    ++ lit "REASON: [Why you made this recommendation]" ++ nl ++ nl
    ++ lit "Focus on the CODE QUALITY, not the review format.".
Proof.
  unfold generate_summary_prompt. cbv zeta. apply strip_id. split.
  - reflexivity.
  - rewrite !rev_app_distr. reflexivity.
Qed.

Lemma count_lf_zero s : ~ In 10%N s -> count_occ N.eq_dec s 10%N = 0.
Proof. apply count_occ_not_In. Qed.

End ExtractShape.

(** X10.  Whatever the text, the label and the case mappings, the value
    [extract_key_info] returns has no whitespace at either end and holds no
    line feed. *)
Theorem extract_key_info_single_line (lower upper : str -> str)
    (result keyword : str) :
  trimmed (extract_key_info lower upper result keyword)
  /\ ~ In 10%N (extract_key_info lower upper result keyword).
Proof. apply extract_key_info_shape. Qed.

(** X11.  The summary prompt of the full generator is its template with the
    three extracted values in place, the final [strip] removing nothing;
    when the function name holds no line feed the prompt has exactly 17
    line feeds, whatever the two review texts contain. *)
Theorem full_summary_prompt_lines (lower upper : str -> str)
    (style_result duplication_result function_name : str) :
  ~ In 10%N function_name ->
  count_occ N.eq_dec
    (generate_summary_prompt lower upper
       style_result duplication_result function_name) 10%N = 17
  /\ trimmed (generate_summary_prompt lower upper
                style_result duplication_result function_name).
Proof.
  intros Hname. split.
  - rewrite full_summary_template_eq. rewrite !count_occ_app.
    rewrite (count_lf_zero _ Hname).
    rewrite !(count_lf_zero _ (proj2 (extract_key_info_shape _ _ _ _))).
    reflexivity.
  - unfold generate_summary_prompt. apply strip_trimmed.
Qed.

Lemma full_summary_prompt_lines_witness :
  count_occ N.eq_dec
    (generate_summary_prompt ascii_lower ascii_upper
       (lit "ISSUES: a" ++ nl ++ nl ++ lit "DECISION: No - b" ++ nl)
       (lit "DUPLICATION LEVEL: Low" ++ nl ++ lit "x") (lit "f")) 10%N = 17.
Proof.
  refine (proj1 (full_summary_prompt_lines ascii_lower ascii_upper
                   _ _ (lit "f") _)).
  intros H. apply has_char_spec in H. discriminate.
Defined.

(** X12.  When the lowercased style review text contains "sorry", both
    style fields of the full generator's summary prompt read "No issues",
    whatever else the text says; the same holds of the duplication level
    for the duplication review text. *)
Theorem full_summary_prompt_sorry (lower upper : str -> str)
    (style_result duplication_result function_name : str) :
  occurs_in (lit "sorry") (lower style_result) ->
  occurs_in (lit "sorry") (lower duplication_result) ->
  generate_summary_prompt lower upper
    style_result duplication_result function_name
  = generate_summary_prompt lower upper [] [] function_name.
Proof.
  intros Hs Hd. rewrite !full_summary_template_eq.
  apply contains_spec in Hs. apply contains_spec in Hd.
  unfold extract_key_info. rewrite Hs, Hd, !orb_true_r. reflexivity.
Qed.

Lemma full_summary_prompt_sorry_witness :
  generate_summary_prompt ascii_lower ascii_upper
    (lit "ISSUES: crash on None" ++ nl ++ lit "DECISION: No - Sorry, unsafe")
    (lit "I'm sorry") (lit "f")
  = generate_summary_prompt ascii_lower ascii_upper [] [] (lit "f").
Proof.
  apply full_summary_prompt_sorry; apply contains_spec; reflexivity.
Defined.

(** X13.  A payload without the keys [added_code] and [deleted_code]
    yields the prompt that reports no code changes, without a context
    section: the full-function text and the function name it may carry do
    not appear. *)
Theorem contextual_prompt_without_changes
    (payload_full payload_name : option str) :
  generate_contextual_review_prompt
    (mkPayload None None payload_full payload_name)
  = style_header ++ nl ++ nl
      ++ lit "No code changes detected." ++ nl
      ++ style_footer
  /\ generate_contextual_review_prompt
       (mkPayload (Some []) (Some []) payload_full payload_name)
     = generate_contextual_review_prompt
         (mkPayload None None payload_full payload_name).
Proof.
  split; [|reflexivity].
  unfold generate_contextual_review_prompt.
  cbn [payload_added_code payload_deleted_code payload_full_function_code
       payload_function_name].
  rewrite style_prompt_eq. cbn [format_blocks truthy].
  unfold context_section, instruction_context.
  destruct payload_full as [[|c f]|]; reflexivity.
Qed.

(* ================================================================== *)
(** * Further properties of the minimal generator *)
(* ================================================================== *)

Section MinimalFacts.

Lemma replace_from_absent old new s :
  contains old s = false -> replace_from 0 old new s = s.
Proof.
  induction s as [|c s IH]; [reflexivity|].
  cbn [contains replace_from]. intros H.
  apply orb_false_iff in H. destruct H as [H1 H2].
  rewrite H1. now rewrite (IH H2).
Qed.

Lemma replace_absent old new s :
  contains old s = false -> replace old new s = s.
Proof.
  destruct old as [|a old].
  - destruct s; discriminate.
  - apply replace_from_absent.
Qed.

Lemma minimal_clean_code_eq code :
  MinimalCodeReviewPrompts._clean_code code = firstn 400 (strip code).
Proof.
  unfold MinimalCodeReviewPrompts._clean_code. destruct code; reflexivity.
Qed.

Lemma head_ok_firstn n s : head_ok s -> head_ok (firstn n s).
Proof. destruct n, s; simpl; auto. Qed.

Lemma minimal_clean_code_blank code :
  blank code = true -> MinimalCodeReviewPrompts._clean_code code = [].
Proof.
  intros H. rewrite minimal_clean_code_eq.
  apply strip_nil_iff in H. now rewrite H.
Qed.

End MinimalFacts.

(** X14.  The summary prompt of the minimal generator has between 265 and
    395 characters, whatever the two review texts are: each text enters it
    cut to at most 80 and 50 characters. *)
Theorem minimal_summary_prompt_length (style_result duplication_result : str) :
  265 <= length (MinimalCodeReviewPrompts.generate_summary_prompt
                   style_result duplication_result)
  /\ length (MinimalCodeReviewPrompts.generate_summary_prompt
               style_result duplication_result) <= 395.
Proof.
  unfold MinimalCodeReviewPrompts.generate_summary_prompt. cbv zeta.
  match goal with
  | |- context [firstn 80 ?x] => set (a := firstn 80 x)
  end.
  match goal with
  | |- context [firstn 50 ?x] => set (b := firstn 50 x)
  end.
  assert (Ha : length a <= 80) by apply firstn_le_length.
  assert (Hb : length b <= 50) by apply firstn_le_length.
  rewrite !length_app.
  repeat match goal with
         | |- context [length (lit ?x)] =>
             let n := eval vm_compute in (length (lit x)) in
             change (length (lit x)) with n
         end.
  change (length nl) with 1. lia.
Qed.

(** X15.  A style review text that holds none of the tokens "ISSUES:",
    "APPROVE:" and "REASON:", and a duplication review text that holds
    neither "DUPLICATE:" nor "ACTION:", enter the minimal generator's
    summary prompt unchanged but for the cut to their first 80 and first
    50 characters. *)
Theorem minimal_summary_prompt_passthrough
    (style_result duplication_result : str) :
  contains (lit "ISSUES:") style_result = false ->
  contains (lit "APPROVE:") style_result = false ->
  contains (lit "REASON:") style_result = false ->
  contains (lit "DUPLICATE:") duplication_result = false ->
  contains (lit "ACTION:") duplication_result = false ->
  MinimalCodeReviewPrompts.generate_summary_prompt
    style_result duplication_result
  = lit "Make final decision about this code change:" ++ nl ++ nl
    ++ lit "What the style review found: " ++ firstn 80 style_result ++ nl
    ++ lit "What the duplication check found: "
    ++ firstn 50 duplication_result ++ nl ++ nl
    ++ lit "Should this code change be merged?" ++ nl ++ nl
    ++ lit "DECISION: [APPROVE/REJECT]" ++ nl
    ++ lit "REASON: [One sentence about the CODE QUALITY]" ++ nl ++ nl
    ++ lit "Do not comment on the review process itself.".
Proof.
  intros H1 H2 H3 H4 H5.
  unfold MinimalCodeReviewPrompts.generate_summary_prompt. cbv zeta.
  rewrite (replace_absent _ [] style_result H1).
  rewrite (replace_absent _ [] style_result H2).
  rewrite (replace_absent _ [] style_result H3).
  rewrite (replace_absent _ [] duplication_result H4).
  rewrite (replace_absent _ [] duplication_result H5).
  reflexivity.
Qed.

Lemma minimal_summary_prompt_passthrough_witness :
  MinimalCodeReviewPrompts.generate_summary_prompt
    (lit "looks fine") (lit "no duplicates")
  = lit "Make final decision about this code change:" ++ nl ++ nl
    ++ lit "What the style review found: " ++ firstn 80 (lit "looks fine")
    ++ nl
    ++ lit "What the duplication check found: "
    ++ firstn 50 (lit "no duplicates") ++ nl ++ nl
    ++ lit "Should this code change be merged?" ++ nl ++ nl
    ++ lit "DECISION: [APPROVE/REJECT]" ++ nl
    ++ lit "REASON: [One sentence about the CODE QUALITY]" ++ nl ++ nl
    ++ lit "Do not comment on the review process itself.".
Proof.
  apply (minimal_summary_prompt_passthrough
           (lit "looks fine") (lit "no duplicates")); reflexivity.
Defined.

(** X16.  The minimal generator's cleaning step returns at most 400
    characters and no leading whitespace.  Applied to its own result it
    only removes trailing whitespace, which the cut at 400 may have
    exposed, and from then on it changes nothing. *)
Theorem minimal_clean_code_twice (code : str) :
  length (MinimalCodeReviewPrompts._clean_code code) <= 400
  /\ head_ok (MinimalCodeReviewPrompts._clean_code code)
  /\ MinimalCodeReviewPrompts._clean_code
       (MinimalCodeReviewPrompts._clean_code code)
     = rstrip (MinimalCodeReviewPrompts._clean_code code)
  /\ MinimalCodeReviewPrompts._clean_code
       (MinimalCodeReviewPrompts._clean_code
          (MinimalCodeReviewPrompts._clean_code code))
     = MinimalCodeReviewPrompts._clean_code
         (MinimalCodeReviewPrompts._clean_code code).
Proof.
  set (x := MinimalCodeReviewPrompts._clean_code code).
  assert (Hlen : length x <= 400).
  { unfold x. rewrite minimal_clean_code_eq. apply firstn_le_length. }
  assert (Hhead : head_ok x).
  { unfold x. rewrite minimal_clean_code_eq.
    apply head_ok_firstn, (proj1 (strip_trimmed code)). }
  assert (Htwice : MinimalCodeReviewPrompts._clean_code x = rstrip x).
  { rewrite minimal_clean_code_eq. unfold strip.
    rewrite (lstrip_id x Hhead). apply firstn_all2.
    pose proof (length_rstrip x). lia. }
  repeat split; try assumption.
  rewrite Htwice, minimal_clean_code_eq.
  rewrite strip_id.
  - apply firstn_all2. pose proof (length_rstrip x). lia.
  - split; [now apply rstrip_head_ok | apply rstrip_rev_head_ok].
Qed.

(** X17.  The minimal review prompt has no code section when neither list
    has a first fragment with code.  A first added fragment whose code is
    not empty but made of whitespace only still opens a NEW CODE section,
    around an empty fenced block, where the full generator renders no
    block for it. *)
Theorem minimal_review_prompt_blank_fragment
    (first : chunk) (rest : list chunk) (function_name : str) :
  chunk_code first <> [] -> blank (chunk_code first) = true ->
  MinimalCodeReviewPrompts.generate_review_prompt
    (first :: rest) [] function_name
  = lit "Code review for function `" ++ function_name
    ++ lit "`. Answer in EXACT format below." ++ nl ++ nl
    ++ lit "NEW CODE:" ++ nl ++ lit "```python" ++ nl ++ nl ++ lit "```" ++ nl
    ++ MinimalCodeReviewPrompts.review_footer
  /\ format_blocks (first :: rest) = format_blocks rest
  /\ MinimalCodeReviewPrompts.generate_review_prompt [] [] function_name
     = lit "Code review for function `" ++ function_name
       ++ lit "`. Answer in EXACT format below." ++ nl ++ nl
       ++ MinimalCodeReviewPrompts.review_footer.
Proof.
  intros Hne Hb. split; [|split].
  - unfold MinimalCodeReviewPrompts.generate_review_prompt. cbv zeta.
    apply truthy_true in Hne. rewrite Hne. cbn [truthy].
    rewrite (minimal_clean_code_blank _ Hb).
    rewrite <- !app_assoc. reflexivity.
  - rewrite !format_blocks_filter. cbn [map filter]. now rewrite Hb.
  - unfold MinimalCodeReviewPrompts.generate_review_prompt. cbv zeta.
    cbn [truthy]. rewrite <- !app_assoc. reflexivity.
Qed.

Lemma minimal_review_prompt_blank_fragment_witness :
  let first := Block (mkCodeBlock 1 1 (lit "   ") 1) in
  MinimalCodeReviewPrompts.generate_review_prompt [first] [] (lit "f")
  = lit "Code review for function `" ++ lit "f"
    ++ lit "`. Answer in EXACT format below." ++ nl ++ nl
    ++ lit "NEW CODE:" ++ nl ++ lit "```python" ++ nl ++ nl ++ lit "```" ++ nl
    ++ MinimalCodeReviewPrompts.review_footer.
Proof.
  intros first.
  apply (minimal_review_prompt_blank_fragment first [] (lit "f"));
    [discriminate | reflexivity].
Defined.

(** X18.  A match that has none of the keys [file], [code] and
    [similarity] is rendered by the full generator with the line "Similar
    code from `unknown_file` (N/A% similar):" above an empty fenced block,
    and by the minimal generator with an empty CODE B block; neither
    fails. *)
Theorem duplication_prompts_missing_keys
    (code_snippet : str) (others : list SimilarCodeMatch)
    (function_name : str) :
  blank code_snippet = false ->
  generate_duplication_check_prompt code_snippet
    (mkSimilarCodeMatch None None None :: others) function_name
  = lit "Check for code duplication. Respond EXACTLY in the format below."
    ++ nl ++ nl
    ++ lit "Current code from `" ++ function_name ++ lit "`:" ++ nl
    ++ lit "```python" ++ nl ++ _clean_code code_snippet ++ nl
    ++ lit "```" ++ nl
    ++ nl
    ++ lit "Similar code from `unknown_file` (N/A% similar):" ++ nl
    ++ lit "```python" ++ nl ++ nl ++ lit "```" ++ nl
    ++ nl
    ++ lit "You MUST respond in this EXACT format:" ++ nl ++ nl
    ++ lit "DUPLICATION LEVEL: [None/Low/Medium/High]" ++ nl ++ nl
    ++ lit "ANALYSIS: [Are these actual duplicates? One sentence.]"
    ++ nl ++ nl
    ++ lit "RECOMMENDATION: [What action to take? One sentence.]"
    ++ nl ++ nl
    ++ lit "Do not add extra text."
  /\ MinimalCodeReviewPrompts.generate_duplication_prompt code_snippet
       (mkSimilarCodeMatch None None None :: others)
     = lit "Compare these code blocks:" ++ nl ++ nl
       ++ lit "CODE A:" ++ nl
       ++ lit "```python" ++ nl
       ++ MinimalCodeReviewPrompts._clean_code code_snippet ++ nl
       ++ lit "```"
       ++ nl ++ nl
       ++ lit "CODE B:" ++ nl
       ++ lit "```python" ++ nl ++ nl ++ lit "```"
       ++ nl ++ nl
       ++ lit "Response format:" ++ nl
       ++ lit "DUPLICATE: [Yes/No]" ++ nl
       ++ lit "ACTION: [Combine/Keep separate/Review needed]".
Proof.
  intros Hb. split.
  - rewrite (duplication_check_prompt_fill _ _ _ _ Hb).
    unfold duplication_check_template, get_file, get_similarity, get_code,
      format_score.
    cbn [sim_file sim_code sim_similarity].
    change (_clean_code []) with (@nil N).
    reflexivity.
  - unfold MinimalCodeReviewPrompts.generate_duplication_prompt,
      MinimalCodeReviewPrompts.comparison_template.
    cbn [truthy negb sim_code]. cbv zeta.
    change (MinimalCodeReviewPrompts._clean_code []) with (@nil N).
    reflexivity.
Qed.

Lemma duplication_prompts_missing_keys_witness :
  generate_duplication_check_prompt (lit "  x = 1")
    [mkSimilarCodeMatch None None None] (lit "f")
  = lit "Check for code duplication. Respond EXACTLY in the format below."
    ++ nl ++ nl
    ++ lit "Current code from `f`:" ++ nl
    ++ lit "```python" ++ nl ++ lit "x = 1" ++ nl ++ lit "```" ++ nl
    ++ nl
    ++ lit "Similar code from `unknown_file` (N/A% similar):" ++ nl
    ++ lit "```python" ++ nl ++ nl ++ lit "```" ++ nl
    ++ nl
    ++ lit "You MUST respond in this EXACT format:" ++ nl ++ nl
    ++ lit "DUPLICATION LEVEL: [None/Low/Medium/High]" ++ nl ++ nl
    ++ lit "ANALYSIS: [Are these actual duplicates? One sentence.]"
    ++ nl ++ nl
    ++ lit "RECOMMENDATION: [What action to take? One sentence.]"
    ++ nl ++ nl
    ++ lit "Do not add extra text.".
Proof.
  exact (proj1 (duplication_prompts_missing_keys
                  (lit "  x = 1") [] (lit "f") eq_refl)).
Defined.
